(** * Atelier Agent: the two route handlers of the web application

    A shallow embedding of
      - [src/web/src/app/api/generate/route.ts]  (module [Generate])
      - [src/web/src/app/api/upload/route.ts]    (module [Upload])
    together with the JavaScript builtins they rely on ([String.prototype.trim],
    truthiness, [Array.prototype.join], [Math.max], [Math.min],
    [Number.isFinite], property lookup on an object literal).

    Conventions.
      - A JavaScript string is the list of its UTF-16 code units.
      - A JavaScript number is an IEEE 754 binary64 value ([spec_float]).
      - A member typed [T | undefined] (or a missing or [null] JSON member)
        is an [option T].
      - Outbound [fetch] calls are appended to a trace; what the remote
        services answer is read from a [World]. *)

From Stdlib Require Import List NArith ZArith Bool Lia.
From Stdlib Require Import Strings.String Strings.Ascii DecimalString.
From Stdlib Require Import Floats.SpecFloat.
Import ListNotations.

Set Implicit Arguments.

(* ================================================================== *)
(** * JavaScript strings *)

Definition jsstring := list N.

(** A source literal; every literal of the two handlers is ASCII. *)
Definition lit (s : string) : jsstring :=
map N_of_ascii (list_ascii_of_string s).

Fixpoint str_eqb (a b : jsstring) : bool :=
  match a, b with
  | [], [] => true
  | x :: a', y :: b' => N.eqb x y && str_eqb a' b'
  | _, _ => false
  end.

(** ToBoolean on a string: only the empty string is falsy. *)
Definition truthy (s : jsstring) : bool :=
  match s with [] => false | _ :: _ => true end.

(** ToBoolean on [string | undefined]. *)
Definition truthy_opt (o : option jsstring) : bool :=
  match o with Some s => truthy s | None => false end.

(** [a || b] where [a : string | undefined] and [b : string]. *)
Definition or_else (a : option jsstring) (b : jsstring) : jsstring :=
  match a with
  | Some s => if truthy s then s else b
  | None => b
  end.

(** ECMAScript WhiteSpace and LineTerminator code points, the ones
    [String.prototype.trim] strips. *)
Definition is_white_space (c : N) : bool :=
  ((9 <=? c) && (c <=? 13)          (* TAB LF VT FF CR *)
   || (c =? 32)                     (* SPACE *)
   || (c =? 160)                    (* NO-BREAK SPACE *)
   || (c =? 5760)                   (* U+1680 *)
   || ((8192 <=? c) && (c <=? 8202))  (* U+2000 .. U+200A *)
   || (c =? 8232) || (c =? 8233)    (* U+2028 U+2029 *)
   || (c =? 8239)                   (* U+202F *)
   || (c =? 8287)                   (* U+205F *)
   || (c =? 12288)                  (* U+3000 *)
   || (c =? 65279))%N.              (* U+FEFF *)

Fixpoint trimStart (s : jsstring) : jsstring :=
  match s with
  | c :: s' => if is_white_space c then trimStart s' else s
  | [] => []
  end.

Definition trimEnd (s : jsstring) : jsstring := rev (trimStart (rev s)).

Definition trim (s : jsstring) : jsstring := trimEnd (trimStart s).

(** [Array.prototype.join] on an array of strings. *)
Fixpoint join (sep : jsstring) (xs : list jsstring) : jsstring :=
  match xs with
  | [] => []
  | [x] => x
  | x :: rest => x ++ sep ++ join sep rest
  end.

(** Decimal rendering of a non-negative integer, as a template literal
    renders an HTTP status or a timestamp. *)
Definition decimal (n : N) : jsstring :=
lit (NilZero.string_of_uint (N.to_uint n)).

Definition LF : N := 10.

(* ================================================================== *)
(** * JavaScript numbers *)

Definition jsnumber := spec_float.

Definition NaN : jsnumber := S754_nan.
Definition Infinity : jsnumber := S754_infinity false.

(** 1, 20 and 7.5 as binary64: 53-bit mantissa, binary exponent. *)
Definition num_1 : jsnumber := S754_finite false 4503599627370496 (-52).
Definition num_20 : jsnumber := S754_finite false 5629499534213120 (-48).
Definition num_7_5 : jsnumber := S754_finite false 8444249301319680 (-50).

(** [Number.isFinite]. *)
Definition Number_isFinite (x : jsnumber) : bool :=
  match x with
  | S754_zero _ | S754_finite _ _ _ => true
  | S754_infinity _ | S754_nan => false
  end.

(** [Math.min] and [Math.max] on two arguments: NaN if either is NaN, and
    -0 is below +0. *)
Definition Math_min (a b : jsnumber) : jsnumber :=
  match SFcompare a b with
  | None => NaN
  | Some Lt => a
  | Some Gt => b
  | Some Eq => match a with S754_zero true => a | _ => b end
  end.

Definition Math_max (a b : jsnumber) : jsnumber :=
  match SFcompare a b with
  | None => NaN
  | Some Lt => b
  | Some Gt => a
  | Some Eq => match a with S754_zero false => a | _ => b end
  end.

(** ToBoolean on a number: +0, -0 and NaN are falsy. *)
Definition truthy_num (x : jsnumber) : bool :=
  match x with
  | S754_zero _ | S754_nan => false
  | S754_infinity _ | S754_finite _ _ _ => true
  end.

(** A JSON member handed to [Number(...)]: missing ([undefined]), a JSON
    number, or any other JSON value, kept with the number the builtin
    conversion gives for it (NaN when it is not convertible). *)
Inductive JsonMember :=
| Missing
| Num (x : jsnumber)
| NonNumber (converted : jsnumber).

Definition Number (v : JsonMember) : jsnumber :=
  match v with
  | Missing => NaN
  | Num x => x
  | NonNumber n => n
  end.

(* ================================================================== *)
(** * Values read off an object literal *)

(** What [obj[key]] can yield for the object literal [STYLE_PRESETS]: an
    own string member, a member inherited from [Object.prototype] (a
    builtin function, or through the [__proto__] accessor the prototype
    object itself), or [undefined]. *)
Inductive jsvalue :=
| Undefined
| Str (s : jsstring)
| NativeFunction (name : jsstring)
| ObjectPrototype.

Definition value_truthy (v : jsvalue) : bool :=
  match v with
  | Undefined => false
  | Str s => truthy s
  | NativeFunction _ | ObjectPrototype => true
  end.

(** ToString, as a template literal applies it (V8 rendering of a builtin
    function). *)
Definition ToString (v : jsvalue) : jsstring :=
  match v with
  | Undefined => lit "undefined"
  | Str s => s
  | NativeFunction name => lit "function " ++ name ++ lit "() { [native code] }"
  | ObjectPrototype => lit "[object Object]"
  end.

Fixpoint assoc (key : jsstring) (table : list (jsstring * jsstring))
  : option jsstring :=
  match table with
  | [] => None
  | (k, v) :: rest => if str_eqb key k then Some v else assoc key rest
  end.

(** The function-valued members of [Object.prototype], each with the name
    of the function it holds. *)
Definition Object_prototype_methods : list (jsstring * jsstring) :=
  [ (lit "constructor", lit "Object");
    (lit "hasOwnProperty", lit "hasOwnProperty");
    (lit "isPrototypeOf", lit "isPrototypeOf");
    (lit "propertyIsEnumerable", lit "propertyIsEnumerable");
    (lit "toLocaleString", lit "toLocaleString");
    (lit "toString", lit "toString");
    (lit "valueOf", lit "valueOf");
    (lit "__defineGetter__", lit "__defineGetter__");
    (lit "__defineSetter__", lit "__defineSetter__");
    (lit "__lookupGetter__", lit "__lookupGetter__");
    (lit "__lookupSetter__", lit "__lookupSetter__") ].

(** [obj[key]] for an object literal whose own members are [own]: own
    members first, then the prototype chain. *)
Definition get_property (own : list (jsstring * jsstring)) (key : jsstring)
  : jsvalue :=
  match assoc key own with
  | Some v => Str v
  | None =>
    match assoc key Object_prototype_methods with
    | Some name => NativeFunction name
    | None =>
      if str_eqb key (lit "__proto__") then ObjectPrototype else Undefined
    end
  end.

(* ================================================================== *)
(** * Exceptions, promises and [fetch] *)

(** A thrown value: an [Error] instance with its message, or anything else. *)
Inductive Thrown :=
| ErrorObject (message : jsstring)
| OtherThrown.

(** How an awaited promise settles. *)
Inductive Outcome (A : Type) :=
| Returned (a : A)
| Threw (e : Thrown).

Arguments Returned {A} a.
Arguments Threw {A} e.

(** The response of a [fetch], with a typed view [J] of its JSON body.
    [json] and [text] are what [response.json()] and [response.text()]
    settle with when they are the first to read the body: [json] throws on
    a body that is not JSON.  A body can be read once; for a later read
    see [text_after_json]. *)
Record FetchResponse (J : Type) := {
  ok : bool;
  status : N;
  headers_get : jsstring -> option jsstring;
  text : Outcome jsstring;
  json : Outcome J
}.

(** The statuses whose responses have no body (Fetch: null body status). *)
Definition null_body_status (status : N) : bool :=
  ((status =? 101) || (status =? 103) || (status =? 204) || (status =? 205)
   || (status =? 304))%N.

(** What a second read of a body rejects with. *)
Definition body_unusable : Thrown :=
  ErrorObject (lit "Body is unusable: Body has already been read").

(** [response.text()] after [response.json()] has read the body and
    failed: the body is used up and the read rejects; only a response
    that has no body at all still gives the empty text. *)
Definition text_after_json {J} (response : FetchResponse J)
  : Outcome jsstring :=
  if null_body_status (status response) then Returned []
  else Threw body_unusable.

(** What reading member [name] of a parsed body throws when the body is
    [null] (V8's text). *)
Definition null_member_error (name : jsstring) : Thrown :=
  ErrorObject
    (lit "Cannot read properties of null (reading '" ++ name ++ lit "')").

(** [process.env]. *)
Record ProcessEnv := {
  STABILITY_API_KEY : option jsstring;
  CLOUDINARY_CLOUD_NAME : option jsstring;
  CLOUDINARY_API_KEY : option jsstring;
  CLOUDINARY_API_SECRET : option jsstring;
  INSTAGRAM_ACCESS_TOKEN : option jsstring;
  INSTAGRAM_IG_USER_ID : option jsstring
}.

(** The body of an incoming request: [request.json()] throws unless the
    body parses.  A body that parses to [null] has no members to read.
    Any other parsed body is seen through the members the handler reads,
    [P]; a body that is a number, a string, a boolean or an array has none
    of them, and is the payload with every member [None]. *)
Inductive RequestBody (P : Type) :=
| NotJson
| JsonNull
| Json (payload : P).

Arguments NotJson {P}.
Arguments JsonNull {P}.
Arguments Json {P} payload.

(** What a handler returns: [NextResponse.json(body, { status })]. *)
Record NextResponse (B : Type) := {
  body : B;
  init_status : N
}.

(** The JSON body posted to the image-generation service. *)
Record StabilityBody := {
  mode : jsstring;
  body_prompt : jsstring;
  negative_prompt : option jsstring;
  aspect_ratio : jsstring;
  output_format : jsstring;
  cfg_scale : jsnumber
}.

(** The four [fetch] call sites of the two handlers. *)
Inductive Call :=
| StabilityGenerate (authorization : jsstring) (request_body : StabilityBody)
| CloudinaryUpload (cloudName : jsstring)
    (formData : list (jsstring * jsstring))
| GraphMedia (igUserId : jsstring) (params : list (jsstring * jsstring))
| GraphMediaPublish (igUserId : jsstring)
    (params : list (jsstring * jsstring)).

Definition is_publish_call (c : Call) : bool :=
  match c with
  | GraphMedia _ _ | GraphMediaPublish _ _ => true
  | StabilityGenerate _ _ | CloudinaryUpload _ _ => false
  end.

(** The members the generate handler reads off the vendor's JSON body. *)
Record StabilityJson := {
  sj_message : option jsstring;
  sj_error : option jsstring;
  sj_stringified : jsstring;           (* JSON.stringify(errJson, null, 2) *)
  sj_artifact0_base64 : option jsstring;
  sj_model_id : option jsstring;
  sj_metrics_inference : JsonMember
}.

(** The parsed body of the hosting service's answer: [null], or a value
    seen as [{ secure_url?: string }]. *)
Inductive CloudinaryJson :=
| CloudinaryNull
| CloudinaryObject (secure_url_member : option jsstring).

(** The [secure_url] member of a parsed body; a [null] body has none. *)
Definition secure_url (j : CloudinaryJson) : option jsstring :=
  match j with
  | CloudinaryNull => None
  | CloudinaryObject u => u
  end.

(** The parsed body of the social platform's answer: [null], or a value
    seen as [{ id?: string; error?: { message?: string } }]. *)
Inductive GraphJson :=
| GraphNull
| GraphObject (id_member : option jsstring)
    (error_message_member : option jsstring).

(** The [id] member of a parsed body; a [null] body has none. *)
Definition id (j : GraphJson) : option jsstring :=
  match j with
  | GraphNull => None
  | GraphObject i _ => i
  end.

(** [json?.error?.message]. *)
Definition error_message (j : GraphJson) : option jsstring :=
  match j with
  | GraphNull => None
  | GraphObject _ m => m
  end.

(** Everything outside the handlers: the environment, the clock, and what
    each remote service answers to a request. *)
Record World := {
  env : ProcessEnv;
  Date_now : N;
  stability : jsstring -> StabilityBody ->
              Outcome (FetchResponse StabilityJson);
  cloudinary : jsstring -> list (jsstring * jsstring) ->
               Outcome (FetchResponse CloudinaryJson);
  graph_media : jsstring -> list (jsstring * jsstring) ->
                Outcome (FetchResponse GraphJson);
  graph_media_publish : jsstring -> list (jsstring * jsstring) ->
                        Outcome (FetchResponse GraphJson)
}.

(** An async computation: it extends the trace of outbound calls and
    settles. *)
Definition M (A : Type) : Type := list Call -> Outcome A * list Call.

Definition ret {A} (a : A) : M A := fun tr => (Returned a, tr).

Definition throw {A} (e : Thrown) : M A := fun tr => (Threw e, tr).

Definition bind {A B} (m : M A) (k : A -> M B) : M B :=
  fun tr =>
    match m tr with
    | (Returned a, tr') => k a tr'
    | (Threw e, tr') => (Threw e, tr')
    end.

Notation "x <- m ;; k" := (bind m (fun x => k))
  (at level 61, m at next level, right associativity).

(** [await p] for a promise that is already determined. *)
Definition await {A} (p : Outcome A) : M A := fun tr => (p, tr).

(** [await fetch(...)]: the call is recorded, the world answers. *)
Definition fetch {J} (c : Call) (answer : Outcome (FetchResponse J))
  : M (FetchResponse J) :=
  fun tr => (answer, tr ++ [c]).

(** [try { m } catch (e) { h e }]. *)
Definition try_catch {A} (m : M A) (h : Thrown -> M A) : M A :=
  fun tr =>
    match m tr with
    | (Returned a, tr') => (Returned a, tr')
    | (Threw e, tr') => h e tr'
    end.

(** [try { x = m } catch (e) { ... }] where the handler leaves the
    function: the settled outcome of [m], handed to the code that follows. *)
Definition attempt {A} (m : M A) : M (Outcome A) :=
  fun tr => let (o, tr') := m tr in (Returned o, tr').

(** A handler run from an empty trace. *)
Definition run {A} (m : M A) : Outcome A * list Call := m [].

(* ================================================================== *)
(** * [api/generate/route.ts] *)

Module Generate.

Definition STYLE_PRESETS : list (jsstring * jsstring) :=
  [ (lit "figurative-ink",
     lit "intricate ink washes, elegant contour lines, subtle shading, gallery lighting");
    (lit "digital-watercolor",
     lit "digital watercolor washes, translucent pigments, soft gradients, expressive strokes");
    (lit "hyperreal-brush",
     lit "hyperreal digital painting, finely detailed skin texture, cinematic lighting, depth of field");
    (lit "comic-neo",
     lit "neo-noir comic rendering, bold inked shadows, halftone highlights, dramatic perspective");
    (lit "concept-art",
     lit "concept art matte painting, atmospheric depth, dynamic posing, professional artstation style") ].

Definition STABILITY_ENDPOINT : jsstring :=
  lit "https://api.stability.ai/v2beta/stable-image/generate/core".

(** The parsed body, with the members at their declared types (strings;
    [guidance] a number); a member that is missing or [null] is [None].
    The [typeof] test on [guidance] treats a member that is not a number
    like a missing one.  Members of other JSON types are outside this
    record: a [prompt] or a truthy [negativePrompt] that is not a string
    has no [trim] and makes the handler throw. *)
Record GenerationPayload := {
  prompt : option jsstring;
  negativePrompt : option jsstring;
  aspectRatio : option jsstring;
  style : option jsstring;
  guidance : option jsnumber
}.

(** The bodies the handler answers with. *)
Inductive ResponseBody :=
| Failure (error : jsstring) (upstream_status : option N)
| Success (base64Image : jsstring) (model : option jsstring)
    (inferenceTime : option jsnumber).

Definition respond (b : ResponseBody) (st : N)
  : M (NextResponse ResponseBody) :=
  ret {| body := b; init_status := st |}.

(** Lines 59-76: the request body built from a payload whose trimmed
    prompt is [prompt]. *)
Definition knockOut (payload : GenerationPayload) : jsstring :=
  trim (or_else (negativePrompt payload) []).

Definition cfgScale (payload : GenerationPayload) : jsnumber :=
  match guidance payload with
  | Some g => g
  | None => num_7_5
  end.

Definition stylePreset (payload : GenerationPayload) : jsvalue :=
  match style payload with
  | Some key => if truthy key then get_property STYLE_PRESETS key
                else Undefined
  | None => Undefined
  end.

Definition finalPrompt (prompt : jsstring) (payload : GenerationPayload)
  : jsstring :=
  if value_truthy (stylePreset payload)
  then prompt ++ lit ", " ++ ToString (stylePreset payload)
  else prompt.

Definition request_body (prompt : jsstring) (payload : GenerationPayload)
  : StabilityBody :=
  {| mode := lit "text-to-image";
     body_prompt := finalPrompt prompt payload;
     negative_prompt :=
       if truthy (knockOut payload) then Some (knockOut payload) else None;
     aspect_ratio := or_else (aspectRatio payload) (lit "1:1");
     output_format := lit "png";
     cfg_scale :=
       if Number_isFinite (cfgScale payload)
       then Math_max num_1 (Math_min num_20 (cfgScale payload))
       else num_7_5 |}.

(** Lines 88-107: the answer to a vendor response that is not [ok]. *)
Definition upstream_failure (response : FetchResponse StabilityJson)
  : M (NextResponse ResponseBody) :=
  errorDetail <-
    try_catch
      (errJson <- await (json response) ;;
       ret (or_else (sj_message errJson)
              (or_else (sj_error errJson) (sj_stringified errJson))))
      (fun _ => await (text_after_json response)) ;;
  respond (Failure errorDetail (Some (status response))) 502.

(** Lines 109-125: the answer to a vendor response that is [ok]. *)
Definition upstream_success (response : FetchResponse StabilityJson)
  : M (NextResponse ResponseBody) :=
  json <- await (json response) ;;
  match sj_artifact0_base64 json with
  | Some base64 =>
    if truthy base64 then
      respond
        (Success base64
           (match sj_model_id json with
            | Some m => Some m
            | None => headers_get response (lit "stability-model-id")
            end)
           (if truthy_num (Number (sj_metrics_inference json))
            then Some (Number (sj_metrics_inference json))
            else None))
        200
    else respond (Failure (lit "No image returned from the Stability API.") None) 502
  | None =>
    respond (Failure (lit "No image returned from the Stability API.") None) 502
  end.

(** Lines 30-127.  Reading [payload.prompt] off the body [null] at line 51
    throws, and no [try] encloses it. *)
Definition POST (w : World) (request : RequestBody GenerationPayload)
  : M (NextResponse ResponseBody) :=
  if negb (truthy_opt (STABILITY_API_KEY (env w))) then
    respond
      (Failure
         (lit "STABILITY_API_KEY is not set. Provide a valid Stability AI key via environment variables.")
         None)
      500
  else
    match request with
    | NotJson => respond (Failure (lit "Invalid JSON payload.") None) 400
    | JsonNull => throw (null_member_error (lit "prompt"))
    | Json payload =>
      let prompt := option_map trim (prompt payload) in
      if negb (truthy_opt prompt) then
        respond (Failure (lit "Prompt is required.") None) 400
      else
        let prompt := or_else prompt [] in
        let authorization :=
          lit "Bearer " ++ or_else (STABILITY_API_KEY (env w)) [] in
        let body := request_body prompt payload in
        response <-
          fetch (StabilityGenerate authorization body)
                (stability w authorization body) ;;
        if negb (ok response) then upstream_failure response
        else upstream_success response
    end.

End Generate.

(* ================================================================== *)
(** * [api/upload/route.ts] *)

Module Upload.

(** The parsed body, with the members at their declared types; a member
    that is missing or [null] is [None]. *)
Record UploadPayload := {
  imageData : option jsstring;
  caption : option jsstring;
  prompt : option jsstring;
  style : option jsstring
}.

(** The bodies the handler answers with. *)
Inductive ResponseBody :=
| Failure (error : jsstring) (imageUrl : option jsstring)
| Success (containerId publishId imageUrl : jsstring).

Definition respond (b : ResponseBody) (st : N)
  : M (NextResponse ResponseBody) :=
  ret {| body := b; init_status := st |}.

Definition ensureEnv (name : jsstring) (value : option jsstring)
  : M jsstring :=
  match value with
  | Some v =>
    if truthy v then ret v
    else throw (ErrorObject
           (name ++ lit " is not set. Please configure it in your environment."))
  | None =>
    throw (ErrorObject
      (name ++ lit " is not set. Please configure it in your environment."))
  end.

(** [array.filter(Boolean)] on an array of strings and [null]s. *)
Fixpoint filter_Boolean (xs : list (option jsstring)) : list jsstring :=
  match xs with
  | [] => []
  | Some s :: rest =>
    if truthy s then s :: filter_Boolean rest else filter_Boolean rest
  | None :: rest => filter_Boolean rest
  end.

Definition hashtags : jsstring :=
  lit "#aiart #figuredrawing #digitalart #agentic".

(** Lines 153-160. *)
Definition finalCaption (caption prompt style : option jsstring)
  : jsstring :=
  join [LF; LF]
    (filter_Boolean
       [ Some (or_else (option_map trim caption) []);
         (if truthy_opt prompt
          then Some (lit "Prompt: " ++ or_else prompt [])
          else None);
         (if truthy_opt style
          then Some (lit "Style: " ++ or_else style [])
          else None);
         Some hashtags ]).

Section Crypto.

(** [crypto.createHash("sha1").update(s).digest("hex")], the platform's
    digest, taken as given. *)
Variable sha1_hex : jsstring -> jsstring.

Definition uploadToCloudinary (w : World) (imageData : jsstring)
  : M jsstring :=
  cloudName <- ensureEnv (lit "CLOUDINARY_CLOUD_NAME")
                 (CLOUDINARY_CLOUD_NAME (env w)) ;;
  apiKey <- ensureEnv (lit "CLOUDINARY_API_KEY")
              (CLOUDINARY_API_KEY (env w)) ;;
  apiSecret <- ensureEnv (lit "CLOUDINARY_API_SECRET")
                 (CLOUDINARY_API_SECRET (env w)) ;;
  let timestamp := (Date_now w / 1000)%N in
  let signatureBase := lit "timestamp=" ++ decimal timestamp ++ apiSecret in
  let signature := sha1_hex signatureBase in
  let formData :=
    [ (lit "file", lit "data:image/png;base64," ++ imageData);
      (lit "api_key", apiKey);
      (lit "timestamp", decimal timestamp);
      (lit "signature", signature);
      (lit "folder", lit "agentic-figure-studies");
      (lit "tags", lit "ai,figure-study,instagram,agentic") ] in
  response <- fetch (CloudinaryUpload cloudName formData)
                (cloudinary w cloudName formData) ;;
  if negb (ok response) then
    errorText <- await (text response) ;;
    throw (ErrorObject
      (or_else (Some errorText)
         (lit "Cloudinary responded with status " ++ decimal (status response))))
  else
    json <- await (json response) ;;
    match json with
    | CloudinaryNull => throw (null_member_error (lit "secure_url"))
    | CloudinaryObject secure_url =>
      if negb (truthy_opt secure_url) then
        throw (ErrorObject (lit "Cloudinary did not return a secure URL."))
      else ret (or_else secure_url [])
    end.

(** [!response.ok || !json.id]: the member is read only when the
    response is ok, and reading it off a [null] body throws. *)
Definition lacks_id (response_ok : bool) (json : GraphJson) : M bool :=
  if negb response_ok then ret true
  else
    match json with
    | GraphNull => throw (null_member_error (lit "id"))
    | GraphObject id _ => ret (negb (truthy_opt id))
    end.

Definition publishToInstagram (w : World) (imageUrl : jsstring)
  (caption prompt style : option jsstring) : M (jsstring * jsstring) :=
  accessToken <- ensureEnv (lit "INSTAGRAM_ACCESS_TOKEN")
                   (INSTAGRAM_ACCESS_TOKEN (env w)) ;;
  igUserId <- ensureEnv (lit "INSTAGRAM_IG_USER_ID")
                (INSTAGRAM_IG_USER_ID (env w)) ;;
  let containerParams :=
    [ (lit "access_token", accessToken);
      (lit "image_url", imageUrl);
      (lit "caption", finalCaption caption prompt style) ] in
  containerResponse <- fetch (GraphMedia igUserId containerParams)
                         (graph_media w igUserId containerParams) ;;
  containerJson <- await (json containerResponse) ;;
  failed <- lacks_id (ok containerResponse) containerJson ;;
  if failed then
    throw (ErrorObject
      (or_else (error_message containerJson)
         (lit "Failed to create Instagram media container ("
            ++ decimal (status containerResponse) ++ lit ").")))
  else
    let publishParams :=
      [ (lit "access_token", accessToken);
        (lit "creation_id", or_else (id containerJson) []) ] in
    publishResponse <- fetch (GraphMediaPublish igUserId publishParams)
                         (graph_media_publish w igUserId publishParams) ;;
    publishJson <- await (json publishResponse) ;;
    failed <- lacks_id (ok publishResponse) publishJson ;;
    if failed then
      throw (ErrorObject
        (or_else (error_message publishJson)
           (lit "Failed to publish Instagram media ("
              ++ decimal (status publishResponse) ++ lit ").")))
    else
      ret (or_else (id containerJson) [], or_else (id publishJson) []).

(** [error instanceof Error ? `${prefix}: ${error.message}` : `${prefix}.`] *)
Definition failure_text (prefix : jsstring) (error : Thrown) : jsstring :=
  match error with
  | ErrorObject message => prefix ++ lit ": " ++ message
  | OtherThrown => prefix ++ lit "."
  end.

(** Lines 21-81.  Destructuring the body [null] at line 33 throws (V8's
    text for the statement as written), and no [try] encloses it. *)
Definition POST (w : World) (request : RequestBody UploadPayload)
  : M (NextResponse ResponseBody) :=
  match request with
  | NotJson => respond (Failure (lit "Invalid JSON payload.") None) 400
  | JsonNull =>
    throw (ErrorObject
      (lit "Cannot destructure property 'imageData' of 'payload' as it is null."))
  | Json payload =>
    if negb (truthy_opt (imageData payload)) then
      respond (Failure (lit "imageData is required.") None) 400
    else
      uploaded <- attempt (uploadToCloudinary w (or_else (imageData payload) [])) ;;
      match uploaded with
      | Threw error =>
        respond (Failure (failure_text (lit "Cloudinary upload failed") error) None)
                502
      | Returned cloudinaryUrl =>
        try_catch
          (publishResult <-
             publishToInstagram w cloudinaryUrl (caption payload)
               (prompt payload) (style payload) ;;
           respond (Success (fst publishResult) (snd publishResult)
                      cloudinaryUrl)
                   200)
          (fun error =>
             respond (Failure
                        (failure_text (lit "Instagram publish failed") error)
                        (Some cloudinaryUrl))
                     502)
      end
  end.

End Crypto.

End Upload.

(* ================================================================== *)
(** * Observations on a run *)

(** The status of the response a handler settled with. *)
Definition status_of {B} (o : Outcome (NextResponse B)) : option N :=
  match o with
  | Returned r => Some (init_status r)
  | Threw _ => None
  end.

(** The URL each call is made to. *)
Definition url_of (c : Call) : jsstring :=
  match c with
  | StabilityGenerate _ _ => Generate.STABILITY_ENDPOINT
  | CloudinaryUpload cloudName _ =>
    lit "https://api.cloudinary.com/v1_1/" ++ cloudName ++ lit "/image/upload"
  | GraphMedia igUserId _ =>
    lit "https://graph.facebook.com/v19.0/" ++ igUserId ++ lit "/media"
  | GraphMediaPublish igUserId _ =>
    lit "https://graph.facebook.com/v19.0/" ++ igUserId
      ++ lit "/media_publish"
  end.

(** The body posted to the image-generation service by a call. *)
Definition forwarded (c : Call) : option StabilityBody :=
  match c with
  | StabilityGenerate _ b => Some b
  | _ => None
  end.

(** [JSON.stringify] on a number-valued member of a response body: an
    [undefined] member is left out, a non-finite number is written
    [null]. *)
Inductive WireMember :=
| Omitted
| WireNull
| WireNumber (x : jsnumber).

Definition stringify_member (v : option jsnumber) : WireMember :=
  match v with
  | None => Omitted
  | Some x => if Number_isFinite x then WireNumber x else WireNull
  end.

(** The [inferenceTime] member of a generate response body. *)
Definition inferenceTime_of (o : Outcome (NextResponse Generate.ResponseBody))
  : option jsnumber :=
  match o with
  | Returned {| body := Generate.Success _ _ t |} => t
  | _ => None
  end.

(* ================================================================== *)
(** * Sample environments, worlds and payloads *)

Definition unreachable {J} : Outcome (FetchResponse J) :=
  Threw (ErrorObject (lit "fetch failed")).

Definition no_env : ProcessEnv :=
  {| STABILITY_API_KEY := None;
     CLOUDINARY_CLOUD_NAME := None;
     CLOUDINARY_API_KEY := None;
     CLOUDINARY_API_SECRET := None;
     INSTAGRAM_ACCESS_TOKEN := None;
     INSTAGRAM_IG_USER_ID := None |}.

(** Generation and hosting credentials set, no social-platform credential. *)
Definition partial_env : ProcessEnv :=
  {| STABILITY_API_KEY := Some (lit "sk-test");
     CLOUDINARY_CLOUD_NAME := Some (lit "cloud");
     CLOUDINARY_API_KEY := Some (lit "123");
     CLOUDINARY_API_SECRET := Some (lit "shhh");
     INSTAGRAM_ACCESS_TOKEN := None;
     INSTAGRAM_IG_USER_ID := None |}.

(** No credential, no service reachable. *)
Definition bare_world : World :=
  {| env := no_env;
     Date_now := 0;
     stability := fun _ _ => unreachable;
     cloudinary := fun _ _ => unreachable;
     graph_media := fun _ _ => unreachable;
     graph_media_publish := fun _ _ => unreachable |}.

(** A vendor answer carrying one artifact and the given inference metric. *)
Definition artifact_response (metric : JsonMember)
  : FetchResponse StabilityJson :=
  {| ok := true;
     status := 200;
     headers_get := fun _ => None;
     text := Returned [];
     json := Returned
       {| sj_message := None;
          sj_error := None;
          sj_stringified := lit "{}";
          sj_artifact0_base64 := Some (lit "iVBORw0KGgo=");
          sj_model_id := None;
          sj_metrics_inference := metric |} |}.

Definition hosted_response : FetchResponse CloudinaryJson :=
  {| ok := true;
     status := 200;
     headers_get := fun _ => None;
     text := Returned [];
     json := Returned
       (CloudinaryObject
          (Some (lit "https://res.cloudinary.com/cloud/a.png"))) |}.

(** Generation and hosting work; the vendor reports [metric]. *)
Definition studio_world (metric : JsonMember) : World :=
  {| env := partial_env;
     Date_now := 1700000000000;
     stability := fun _ _ => Returned (artifact_response metric);
     cloudinary := fun _ _ => Returned hosted_response;
     graph_media := fun _ _ => unreachable;
     graph_media_publish := fun _ _ => unreachable |}.

(** As [studio_world], with the hosting service unreachable. *)
Definition unhosted_world : World :=
  {| env := partial_env;
     Date_now := 1700000000000;
     stability := fun _ _ => unreachable;
     cloudinary := fun _ _ => unreachable;
     graph_media := fun _ _ => unreachable;
     graph_media_publish := fun _ _ => unreachable |}.

Definition generation (prompt : option jsstring) (aspectRatio style : option jsstring)
  (guidance : option jsnumber) : Generate.GenerationPayload :=
  {| Generate.prompt := prompt;
     Generate.negativePrompt := None;
     Generate.aspectRatio := aspectRatio;
     Generate.style := style;
     Generate.guidance := guidance |}.

Definition upload (imageData : option jsstring) : Upload.UploadPayload :=
  {| Upload.imageData := imageData;
     Upload.caption := Some (lit "A");
     Upload.prompt := Some (lit "B");
     Upload.style := Some (lit "C") |}.

(** A stand-in digest for runs on sample inputs. *)
Definition sample_digest (s : jsstring) : jsstring := lit "da39a3ee".

(* ================================================================== *)
(** * The requests the upload handler builds *)

(** The members a variable of [process.env] must have for [ensureEnv] to
    return it: set, to the non-empty string [s]. *)
Definition set_to (value : option jsstring) (s : jsstring) : Prop :=
  value = Some s /\ truthy s = true.

(** The form of the hosting upload ([uploadToCloudinary], lines 94-107),
    for the clock reading [now]. *)
Definition signed_form (sha1_hex : jsstring -> jsstring) (now : N)
  (apiKey apiSecret imageData : jsstring) : list (jsstring * jsstring) :=
  [ (lit "file", lit "data:image/png;base64," ++ imageData);
    (lit "api_key", apiKey);
    (lit "timestamp", decimal (now / 1000));
    (lit "signature",
     sha1_hex (lit "timestamp=" ++ decimal (now / 1000) ++ apiSecret));
    (lit "folder", lit "agentic-figure-studies");
    (lit "tags", lit "ai,figure-study,instagram,agentic") ].

(** The parameters of the container creation ([publishToInstagram],
    lines 162-166). *)
Definition container_params (accessToken imageUrl : jsstring)
  (payload : Upload.UploadPayload) : list (jsstring * jsstring) :=
  [ (lit "access_token", accessToken);
    (lit "image_url", imageUrl);
    (lit "caption",
     Upload.finalCaption (Upload.caption payload) (Upload.prompt payload)
       (Upload.style payload)) ].

(** The parameters of the publication (lines 188-191). *)
Definition publish_params (accessToken creation_id : jsstring)
  : list (jsstring * jsstring) :=
  [ (lit "access_token", accessToken); (lit "creation_id", creation_id) ].

(** The message of the error the handlers raise for a missing variable. *)
Definition not_set (name : jsstring) : jsstring :=
  name ++ lit " is not set. Please configure it in your environment.".

(* ================================================================== *)
(** * [components/ArtAgent.tsx] *)

Module ArtAgent.

(** [GeneratedImage]; [image_prompt] and [image_style] are its members
    [prompt] and [style]. *)
Record GeneratedImage := {
  base64 : jsstring;
  createdAt : N;
  image_prompt : jsstring;
  image_style : jsstring
}.

Record GenerationResponse := {
  base64Image : jsstring;
  inferenceTime : option jsnumber;
  model : option jsstring
}.

(** [Omit<GenerationResponse, "base64Image"> & { prompt; style }]. *)
Record GenerationMeta := {
  meta_inferenceTime : option jsnumber;
  meta_model : option jsstring;
  meta_prompt : jsstring;
  meta_style : jsstring
}.

(** Lines 19-34, on the settled [fetch] of the request. *)
Definition postJSON {T} (res : Outcome (FetchResponse T)) : Outcome T :=
  match res with
  | Threw e => Threw e
  | Returned res =>
    if negb (ok res) then
      match text res with
      | Returned text =>
        Threw (ErrorObject
                 (or_else (Some text)
                    (lit "Request failed with " ++ decimal (status res))))
      | Threw e => Threw e
      end
    else json res
  end.

Definition defaultPrompt : jsstring :=
  lit "Portrait of a young artist sketching in a sunlit studio, expressive line art, soft pastel palette, hyperrealistic lighting".

(** The options of the two selects, as (value, label). *)
Definition styles : list (jsstring * jsstring) :=
  [ (lit "figurative-ink", lit "Figurative Ink");
    (lit "digital-watercolor", lit "Digital Watercolor");
    (lit "hyperreal-brush", lit "Hyperreal Brush");
    (lit "comic-neo", lit "Comic Neo-Noir");
    (lit "concept-art", lit "Concept Art") ].

Definition aspectRatios : list (jsstring * jsstring) :=
  [ (lit "1:1", lit "Square (1:1)");
    (lit "3:4", lit "Portrait (3:4)");
    (lit "4:5", lit "Portrait (4:5)");
    (lit "9:16", lit "Vertical (9:16)");
    (lit "16:9", lit "Landscape (16:9)") ].

(** The component's state, one member per [useState]. *)
Record State := {
  prompt : jsstring;
  style : jsstring;
  aspectRatio : jsstring;
  negativePrompt : jsstring;
  guidance : jsnumber;
  isGenerating : bool;
  isUploading : bool;
  generationError : option jsstring;
  uploadError : option jsstring;
  caption : jsstring;
  generationMeta : option GenerationMeta;
  history : list GeneratedImage
}.

(** The state of a freshly mounted component. *)
Definition initial : State :=
  {| prompt := defaultPrompt;
     style := lit "figurative-ink";
     aspectRatio := lit "1:1";
     negativePrompt := lit "distorted anatomy, low quality, blurry, watermark";
     guidance := num_7_5;
     isGenerating := false;
     isUploading := false;
     generationError := None;
     uploadError := None;
     caption := lit "Daily figure drawing study " ++ [183%N]
                  ++ lit " #art #figurestudy #digitalart";
     generationMeta := None;
     history := [] |}.

Definition setIsGenerating (v : bool) (s : State) : State :=
  {| prompt := prompt s; style := style s; aspectRatio := aspectRatio s;
     negativePrompt := negativePrompt s; guidance := guidance s;
     isGenerating := v; isUploading := isUploading s;
     generationError := generationError s; uploadError := uploadError s;
     caption := caption s; generationMeta := generationMeta s;
     history := history s |}.

Definition setIsUploading (v : bool) (s : State) : State :=
  {| prompt := prompt s; style := style s; aspectRatio := aspectRatio s;
     negativePrompt := negativePrompt s; guidance := guidance s;
     isGenerating := isGenerating s; isUploading := v;
     generationError := generationError s; uploadError := uploadError s;
     caption := caption s; generationMeta := generationMeta s;
     history := history s |}.

Definition setGenerationError (v : option jsstring) (s : State) : State :=
  {| prompt := prompt s; style := style s; aspectRatio := aspectRatio s;
     negativePrompt := negativePrompt s; guidance := guidance s;
     isGenerating := isGenerating s; isUploading := isUploading s;
     generationError := v; uploadError := uploadError s;
     caption := caption s; generationMeta := generationMeta s;
     history := history s |}.

Definition setUploadError (v : option jsstring) (s : State) : State :=
  {| prompt := prompt s; style := style s; aspectRatio := aspectRatio s;
     negativePrompt := negativePrompt s; guidance := guidance s;
     isGenerating := isGenerating s; isUploading := isUploading s;
     generationError := generationError s; uploadError := v;
     caption := caption s; generationMeta := generationMeta s;
     history := history s |}.

Definition setGenerationMeta (v : option GenerationMeta) (s : State) : State :=
  {| prompt := prompt s; style := style s; aspectRatio := aspectRatio s;
     negativePrompt := negativePrompt s; guidance := guidance s;
     isGenerating := isGenerating s; isUploading := isUploading s;
     generationError := generationError s; uploadError := uploadError s;
     caption := caption s; generationMeta := v;
     history := history s |}.

(** [setHistory(update)] with an updater of the previous history. *)
Definition setHistory (update : list GeneratedImage -> list GeneratedImage)
  (s : State) : State :=
  {| prompt := prompt s; style := style s; aspectRatio := aspectRatio s;
     negativePrompt := negativePrompt s; guidance := guidance s;
     isGenerating := isGenerating s; isUploading := isUploading s;
     generationError := generationError s; uploadError := uploadError s;
     caption := caption s; generationMeta := generationMeta s;
     history := update (history s) |}.

(** [history.at(0) ?? null]. *)
Definition latestImage (s : State) : option GeneratedImage :=
  hd_error (history s).

(** A number member after [JSON.stringify] and the server's
    [request.json()]: a non-finite number arrives as [null], -0 as 0. *)
Definition json_number (x : jsnumber) : option jsnumber :=
  match x with
  | S754_zero _ => Some (S754_zero false)
  | S754_finite s m e => Some (S754_finite s m e)
  | S754_infinity _ | S754_nan => None
  end.

(** Lines 85-91: the payload [generate] posts, as the generate handler
    parses it. *)
Definition generate_payload (s : State) : Generate.GenerationPayload :=
  {| Generate.prompt := Some (prompt s);
     Generate.negativePrompt := Some (negativePrompt s);
     Generate.aspectRatio := Some (aspectRatio s);
     Generate.style := Some (style s);
     Generate.guidance := json_number (guidance s) |}.

(** Lines 81-83: [generate] up to its [await]. *)
Definition generate_begin (s : State) : State :=
  setUploadError None (setGenerationError None (setIsGenerating true s)).

(** Lines 92-115: [generate] from the settled [postJSON] on, in the state
    [s] of that moment; [prompt] and [style] are the ones the callback was
    created with, [now] is the reading of [Date.now()]. *)
Definition generate_settle (prompt style : jsstring)
  (result : Outcome GenerationResponse) (now : N) (s : State) : State :=
  setIsGenerating false
    match result with
    | Returned data =>
      setHistory
        (fun prev =>
           {| base64 := base64Image data;
              createdAt := now;
              image_prompt := prompt;
              image_style := style |} :: prev)
        (setGenerationMeta
           (Some {| meta_inferenceTime := inferenceTime data;
                    meta_model := model data;
                    meta_prompt := prompt;
                    meta_style := style |})
           s)
    | Threw (ErrorObject message) => setGenerationError (Some message) s
    | Threw OtherThrown =>
      setGenerationError (Some (lit "Failed to generate image.")) s
    end.

(** Lines 125-130: the payload [upload] posts, if it posts one. *)
Definition upload_payload (s : State) : option Upload.UploadPayload :=
  match latestImage s with
  | None => None
  | Some latest =>
    Some {| Upload.imageData := Some (base64 latest);
            Upload.caption := Some (caption s);
            Upload.prompt := Some (image_prompt latest);
            Upload.style := Some (image_style latest) |}
  end.

(** Lines 119-123: [upload] up to its [await]. *)
Definition upload_begin (s : State) : State :=
  match latestImage s with
  | None => s
  | Some _ => setUploadError None (setIsUploading true s)
  end.

(** Lines 131-142: [upload] from the settled [postJSON] on. *)
Definition upload_settle {T} (result : Outcome T) (s : State) : State :=
  setIsUploading false
    match result with
    | Returned _ => s
    | Threw (ErrorObject message) => setUploadError (Some message) s
    | Threw OtherThrown =>
      setUploadError (Some (lit "Failed to upload to Instagram.")) s
    end.

(** The [disabled] attribute of the upload button. *)
Definition upload_disabled (s : State) : bool :=
  match latestImage s with
  | None => true
  | Some _ => isUploading s
  end.

(** The images of the session gallery: [history.slice(1)], shown when
    [history.length > 1]. *)
Definition gallery (s : State) : list GeneratedImage :=
  if (1 <? List.length (history s))%nat then tl (history s) else [].

(** A session: the generations that settle, one after the other, each
    with the prompt and style it was started with, its result and the
    clock reading. *)
Definition Settlement : Type :=
  (jsstring * jsstring * Outcome GenerationResponse * N)%type.

Fixpoint settle_all (events : list Settlement) (s : State) : State :=
  match events with
  | [] => s
  | (prompt, style, result, now) :: rest =>
    settle_all rest (generate_settle prompt style result now s)
  end.

(** The images a session's successful generations produce, in order. *)
Fixpoint produced (events : list Settlement) : list GeneratedImage :=
  match events with
  | [] => []
  | (prompt, style, Returned data, now) :: rest =>
    {| base64 := base64Image data;
       createdAt := now;
       image_prompt := prompt;
       image_style := style |} :: produced rest
  | (_, _, Threw _, _) :: rest => produced rest
  end.

End ArtAgent.

(* ================================================================== *)
(** * More sample worlds *)

Definition full_env : ProcessEnv :=
  {| STABILITY_API_KEY := Some (lit "sk-test");
     CLOUDINARY_CLOUD_NAME := Some (lit "cloud");
     CLOUDINARY_API_KEY := Some (lit "123");
     CLOUDINARY_API_SECRET := Some (lit "shhh");
     INSTAGRAM_ACCESS_TOKEN := Some (lit "EAAG");
     INSTAGRAM_IG_USER_ID := Some (lit "1784") |}.

(** A response with the given status line, body text and parsed body. *)
Definition response_of {J} (ok : bool) (status : N) (text : jsstring)
  (json : Outcome J) : FetchResponse J :=
  {| ok := ok;
     status := status;
     headers_get := fun _ => None;
     text := Returned text;
     json := json |}.

(** A world whose services give the same answer to every request. *)
Definition world_with (e : ProcessEnv)
  (s : Outcome (FetchResponse StabilityJson))
  (c : Outcome (FetchResponse CloudinaryJson))
  (m p : Outcome (FetchResponse GraphJson)) : World :=
  {| env := e;
     Date_now := 1700000000000;
     stability := fun _ _ => s;
     cloudinary := fun _ _ => c;
     graph_media := fun _ _ => m;
     graph_media_publish := fun _ _ => p |}.

Definition vendor_json (message : option jsstring)
  (artifact : option jsstring) : StabilityJson :=
  {| sj_message := message;
     sj_error := None;
     sj_stringified := lit "{}";
     sj_artifact0_base64 := artifact;
     sj_model_id := Some (lit "core-v1");
     sj_metrics_inference := Missing |}.

Definition graph_answer (ok : bool) (status : N) (id : option jsstring)
  (message : option jsstring) : Outcome (FetchResponse GraphJson) :=
  Returned (response_of ok status [] (Returned (GraphObject id message))).

Definition sample_upload : Upload.UploadPayload :=
  upload (Some (lit "iVBORw0KGgo=")).

Definition sample_url : jsstring :=
  lit "https://res.cloudinary.com/cloud/a.png".

(* ================================================================== *)
(** * Facts about the builtins *)

Example num_1_valid : valid_binary 53 1024 num_1 = true.
Proof. reflexivity. Qed.

Example num_20_valid : valid_binary 53 1024 num_20 = true.
Proof. reflexivity. Qed.

Example num_7_5_valid : valid_binary 53 1024 num_7_5 = true.
Proof. reflexivity. Qed.

Lemma trimStart_nil_iff (s : jsstring) :
  trimStart s = [] <-> forallb is_white_space s = true.
Proof.
  induction s as [|c s IH]; simpl.
  - tauto.
  - destruct (is_white_space c); simpl.
    + exact IH.
    + split; discriminate.
Qed.

Lemma trimStart_head (s : jsstring) c t :
  trimStart s = c :: t -> is_white_space c = false.
Proof.
  induction s as [|d s IH]; simpl; [discriminate|].
  destruct (is_white_space d) eqn:E; [exact IH|].
  intros H; injection H as -> _; exact E.
Qed.

Lemma forallb_rev {A} (f : A -> bool) (l : list A) :
  forallb f (rev l) = forallb f l.
Proof.
  induction l as [|a l IH]; simpl; [reflexivity|].
  rewrite forallb_app, IH; simpl.
  rewrite andb_true_r; apply andb_comm.
Qed.

(** [s.trim()] is empty exactly when [s] is empty or all white space. *)
Lemma trim_nil_iff (s : jsstring) :
  trim s = [] <-> forallb is_white_space s = true.
Proof.
  unfold trim, trimEnd; split.
  - intros H.
    assert (H1 : trimStart (rev (trimStart s)) = []).
    { destruct (trimStart (rev (trimStart s))) as [|c l]; [reflexivity|].
      simpl in H; destruct (rev l); discriminate. }
    apply trimStart_nil_iff in H1; rewrite forallb_rev in H1.
    destruct (trimStart s) as [|c t] eqn:E.
    + apply trimStart_nil_iff; exact E.
    + apply trimStart_head in E; simpl in H1; rewrite E in H1; discriminate.
  - intros H; apply trimStart_nil_iff in H; rewrite H; reflexivity.
Qed.

Lemma truthy_false_iff (s : jsstring) : truthy s = false <-> s = [].
Proof. destruct s; simpl; split; congruence. Qed.

(** [!payload.prompt?.trim()] holds exactly for an absent, empty or
    white-space-only prompt. *)
Lemma blank_prompt_iff (p : option jsstring) :
  truthy_opt (option_map trim p) = false <->
  (p = None \/ exists s, p = Some s /\ forallb is_white_space s = true).
Proof.
  destruct p as [s|]; simpl.
  - rewrite truthy_false_iff, trim_nil_iff; split.
    + intros H; right; exists s; auto.
    + intros [H|[s' [H1 H2]]]; [discriminate|congruence].
  - split; auto.
Qed.

(* ================================================================== *)
(** * The generate handler *)

(** Handling the vendor's answer makes no further outbound call. *)
Lemma upstream_failure_trace response tr :
  snd (Generate.upstream_failure response tr) = tr.
Proof.
  unfold Generate.upstream_failure, Generate.respond, bind, try_catch, await, ret.
  destruct (json response) as [j|e]; simpl.
  - reflexivity.
  - destruct (text_after_json response); reflexivity.
Qed.

Lemma upstream_success_trace response tr :
  snd (Generate.upstream_success response tr) = tr.
Proof.
  unfold Generate.upstream_success, Generate.respond, bind, await, ret.
  destruct (json response) as [j|e]; simpl; [|reflexivity].
  destruct (sj_artifact0_base64 j) as [b|]; [|reflexivity].
  destruct (truthy b); reflexivity.
Qed.

(** The outbound calls of one run: none unless the credential is set and
    the trimmed prompt is non-empty, and then exactly one, carrying
    [request_body] of the trimmed prompt. *)
Lemma generate_trace w payload :
  snd (run (Generate.POST w (Json payload))) =
  if truthy_opt (STABILITY_API_KEY (env w))
     && truthy_opt (option_map trim (Generate.prompt payload))
  then [ StabilityGenerate
           (lit "Bearer " ++ or_else (STABILITY_API_KEY (env w)) [])
           (Generate.request_body
              (or_else (option_map trim (Generate.prompt payload)) [])
              payload) ]
  else [].
Proof.
  unfold run, Generate.POST.
  destruct (truthy_opt (STABILITY_API_KEY (env w))); simpl; [|reflexivity].
  destruct (truthy_opt (option_map trim (Generate.prompt payload)));
    simpl; [|reflexivity].
  unfold bind, fetch.
  match goal with |- context [stability w ?a ?b] =>
    destruct (stability w a b) as [response|e] end; [|reflexivity].
  destruct (ok response); simpl.
  - apply upstream_success_trace.
  - apply upstream_failure_trace.
Qed.

Lemma generate_call_inv w payload c :
  In c (snd (run (Generate.POST w (Json payload)))) ->
  truthy_opt (option_map trim (Generate.prompt payload)) = true /\
  forwarded c =
    Some (Generate.request_body
            (or_else (option_map trim (Generate.prompt payload)) []) payload).
Proof.
  rewrite generate_trace.
  destruct (truthy_opt (STABILITY_API_KEY (env w))); simpl; [|tauto].
  destruct (truthy_opt (option_map trim (Generate.prompt payload)));
    simpl; [|tauto].
  intros [<-|[]]; auto.
Qed.

(** C1, as the code has it: a Generate request whose body parses to a
    value other than [null] and whose prompt is absent, empty or
    white-space-only never reaches the upstream service; it is answered
    400 "Prompt is required." when the service credential is configured,
    and 500 by the credential check, which runs first, when it is not. *)
Theorem generate_blank_prompt w payload :
  (Generate.prompt payload = None \/
   exists s, Generate.prompt payload = Some s /\
             forallb is_white_space s = true) ->
  run (Generate.POST w (Json payload)) =
  ( Returned
      (if truthy_opt (STABILITY_API_KEY (env w))
       then {| body := Generate.Failure (lit "Prompt is required.") None;
               init_status := 400 |}
       else {| body := Generate.Failure
                 (lit "STABILITY_API_KEY is not set. Provide a valid Stability AI key via environment variables.")
                 None;
               init_status := 500 |}),
    [] ).
Proof.
  intros H; apply blank_prompt_iff in H.
  unfold run, Generate.POST.
  destruct (truthy_opt (STABILITY_API_KEY (env w))); simpl; [|reflexivity].
  rewrite H; reflexivity.
Qed.

Lemma generate_blank_prompt_witness :
  run (Generate.POST (studio_world Missing)
         (Json (generation (Some (lit "   ")) None None None))) =
  ( Returned {| body := Generate.Failure (lit "Prompt is required.") None;
                init_status := 400 |},
    [] ).
Proof.
  apply (generate_blank_prompt (studio_world Missing)
           (generation (Some (lit "   ")) None None None)).
  right; exists (lit "   "); split; reflexivity.
Defined.

(** C1, as stated, fails without the credential: an empty prompt is then
    answered 500, not 400. *)
Lemma generate_blank_prompt_without_key :
  status_of (fst (run (Generate.POST bare_world
                        (Json (generation (Some []) None None None))))) =
  Some 500%N.
Proof. reflexivity. Qed.

(** The body [null], which the statement above leaves out: without the
    credential it is answered 500 like every request; with it, reading
    [payload.prompt] at line 51 throws outside any [try], and the handler
    rejects without a response.  No call is made either way. *)
Lemma generate_null_body w :
  run (Generate.POST w JsonNull) =
  ( if truthy_opt (STABILITY_API_KEY (env w))
    then Threw (null_member_error (lit "prompt"))
    else Returned
           {| body := Generate.Failure
                (lit "STABILITY_API_KEY is not set. Provide a valid Stability AI key via environment variables.")
                None;
              init_status := 500 |},
    [] ).
Proof.
  unfold run, Generate.POST.
  destruct (truthy_opt (STABILITY_API_KEY (env w))); reflexivity.
Qed.

(** C9, as the code has it: a body that is not JSON is answered 400
    "Invalid JSON payload." with no outbound call by the upload handler
    always, and by the generate handler when its credential is configured;
    without the credential the generate handler answers 500 first. *)
Theorem invalid_json_rejected sha1_hex w :
  run (Upload.POST sha1_hex w NotJson) =
  ( Returned {| body := Upload.Failure (lit "Invalid JSON payload.") None;
                init_status := 400 |},
    [] )
  /\
  run (Generate.POST w NotJson) =
  ( Returned
      (if truthy_opt (STABILITY_API_KEY (env w))
       then {| body := Generate.Failure (lit "Invalid JSON payload.") None;
               init_status := 400 |}
       else {| body := Generate.Failure
                 (lit "STABILITY_API_KEY is not set. Provide a valid Stability AI key via environment variables.")
                 None;
               init_status := 500 |}),
    [] ).
Proof.
  split; [reflexivity|].
  unfold run, Generate.POST.
  destruct (truthy_opt (STABILITY_API_KEY (env w))); reflexivity.
Qed.

(** C9, as stated, fails on the generate handler without the credential. *)
Lemma invalid_json_without_key :
  status_of (fst (run (Generate.POST bare_world NotJson))) = Some 500%N.
Proof. reflexivity. Qed.

(** Clamping between two positive finite bounds [lo < hi], by comparisons. *)
Lemma clamp_between m1 e1 m2 e2 (g : jsnumber) :
  SFcompare (S754_finite false m1 e1) (S754_finite false m2 e2) = Some Lt ->
  Number_isFinite g = true ->
  Math_max (S754_finite false m1 e1)
    (Math_min (S754_finite false m2 e2) g) =
  if SFltb g (S754_finite false m1 e1) then S754_finite false m1 e1
  else if SFltb (S754_finite false m2 e2) g then S754_finite false m2 e2
  else g.
Proof.
  intros Hlt Hfin.
  destruct g as [s|s| |s m e]; try discriminate.
  - reflexivity.
  - destruct s; [reflexivity|].
    unfold Math_max, Math_min, SFltb in *.
    cbn [SFcompare] in *.
    change (Pos.compare_cont Eq) with Pos.compare in *.
    assert (Hlo : (e1 < e2)%Z \/ (e1 = e2 /\ (m1 < m2)%positive)).
    { destruct (Z.compare_spec e1 e2); [right|left|discriminate]; auto.
      split; auto. injection Hlt as Hlt. exact Hlt. }
    clear Hlt.
    destruct (Z.compare_spec e2 e) as [E2|E2|E2];
      [destruct (Pos.compare_spec m2 m) as [M2|M2|M2]| |];
      cbn [SFcompare]; change (Pos.compare_cont Eq) with Pos.compare;
      destruct (Z.compare_spec e1 e2); destruct (Z.compare_spec e1 e);
      destruct (Z.compare_spec e e1); try lia;
      destruct (Pos.compare_spec m1 m2); destruct (Pos.compare_spec m1 m);
      destruct (Pos.compare_spec m m1); try lia; subst; reflexivity.
Qed.

(** [Math.max(1, Math.min(20, g))] on a finite [g]. *)
Lemma clamp_finite (g : jsnumber) :
  Number_isFinite g = true ->
  Math_max num_1 (Math_min num_20 g) =
  if SFltb g num_1 then num_1 else if SFltb num_20 g then num_20 else g.
Proof. apply clamp_between; reflexivity. Qed.

(** C6: the [cfg_scale] forwarded to the vendor is 7.5 when [guidance] is
    absent or not finite, and otherwise [guidance] clamped into [1, 20]:
    1 below 1, 20 above 20, the value itself in between. *)
Theorem cfg_scale_forwarded w payload c b :
  In c (snd (run (Generate.POST w (Json payload)))) ->
  forwarded c = Some b ->
  cfg_scale b =
  match Generate.guidance payload with
  | None => num_7_5
  | Some g =>
    if Number_isFinite g
    then if SFltb g num_1 then num_1
         else if SFltb num_20 g then num_20
         else g
    else num_7_5
  end.
Proof.
  intros Hc Hb; apply generate_call_inv in Hc; destruct Hc as [_ Hc].
  rewrite Hc in Hb; injection Hb as <-.
  unfold Generate.request_body, Generate.cfgScale; cbn [cfg_scale].
  destruct (Generate.guidance payload) as [g|]; [|reflexivity].
  destruct (Number_isFinite g) eqn:F; [|reflexivity].
  apply clamp_finite; exact F.
Qed.

Lemma cfg_scale_forwarded_witness :
  cfg_scale
    (Generate.request_body (lit "a")
       (generation (Some (lit "a")) None None (Some (S754_infinity true)))) =
  num_7_5.
Proof.
  apply (@cfg_scale_forwarded (studio_world Missing)
           (generation (Some (lit "a")) None None (Some (S754_infinity true)))
           (StabilityGenerate (lit "Bearer sk-test")
              (Generate.request_body (lit "a")
                 (generation (Some (lit "a")) None None
                    (Some (S754_infinity true)))))).
  - vm_compute; left; reflexivity.
  - reflexivity.
Defined.

(** C8, as the code has it: the aspect ratio forwarded to the vendor is
    "1:1" when [aspectRatio] is absent or the empty string, and otherwise
    the supplied string, unvalidated. *)
Theorem aspect_ratio_forwarded w payload c b :
  In c (snd (run (Generate.POST w (Json payload)))) ->
  forwarded c = Some b ->
  aspect_ratio b =
  match Generate.aspectRatio payload with
  | Some (x :: s) => x :: s
  | Some [] | None => lit "1:1"
  end.
Proof.
  intros Hc Hb; apply generate_call_inv in Hc; destruct Hc as [_ Hc].
  rewrite Hc in Hb; injection Hb as <-.
  unfold Generate.request_body; cbn [aspect_ratio].
  destruct (Generate.aspectRatio payload) as [[|x s]|]; reflexivity.
Qed.

Lemma aspect_ratio_forwarded_witness :
  aspect_ratio
    (Generate.request_body (lit "a")
       (generation (Some (lit "a")) (Some (lit "2:1")) None None)) =
  lit "2:1".
Proof.
  apply (@aspect_ratio_forwarded (studio_world Missing)
           (generation (Some (lit "a")) (Some (lit "2:1")) None None)
           (StabilityGenerate (lit "Bearer sk-test")
              (Generate.request_body (lit "a")
                 (generation (Some (lit "a")) (Some (lit "2:1")) None
                    None)))).
  - vm_compute; left; reflexivity.
  - reflexivity.
Defined.

(** C8, as stated, fails on the empty string: it is supplied, and "1:1"
    is forwarded in its place. *)
Lemma empty_aspect_ratio_replaced :
  map (fun c => option_map aspect_ratio (forwarded c))
    (snd (run (Generate.POST (studio_world Missing)
                 (Json (generation (Some (lit "a")) (Some []) None None))))) =
  [ Some (lit "1:1") ].
Proof. vm_compute; reflexivity. Qed.

(** ** Style presets *)

(** A recognized style key appends its descriptor after ", ". *)
Lemma style_recognized key descriptor p payload :
  In (key, descriptor) Generate.STYLE_PRESETS ->
  Generate.style payload = Some key ->
  Generate.finalPrompt p payload = p ++ lit ", " ++ descriptor.
Proof.
  intros Hin Hs.
  assert (Hk : truthy key = true /\
               get_property Generate.STYLE_PRESETS key = Str descriptor).
  { simpl in Hin.
    repeat (destruct Hin as [Hin|Hin];
            [injection Hin as <- <-; split; vm_compute; reflexivity|]).
    destruct Hin. }
  destruct Hk as [Ht Hg].
  unfold Generate.finalPrompt, Generate.stylePreset.
  rewrite Hs, Ht, Hg; simpl.
  destruct descriptor; [|reflexivity].
  simpl in Hin; repeat (destruct Hin as [Hin|Hin]; [discriminate|]).
  destruct Hin.
Qed.

(** An absent or empty style key leaves the prompt as it is. *)
Lemma style_absent p payload :
  truthy_opt (Generate.style payload) = false ->
  Generate.finalPrompt p payload = p.
Proof.
  unfold Generate.finalPrompt, Generate.stylePreset.
  destruct (Generate.style payload) as [key|]; simpl; [|reflexivity].
  intros ->; reflexivity.
Qed.

(** So does a key that names neither a preset nor a member of
    [Object.prototype]. *)
Lemma style_unknown p payload key :
  Generate.style payload = Some key ->
  assoc key Generate.STYLE_PRESETS = None ->
  assoc key Object_prototype_methods = None ->
  str_eqb key (lit "__proto__") = false ->
  Generate.finalPrompt p payload = p.
Proof.
  intros Hs H1 H2 H3.
  unfold Generate.finalPrompt, Generate.stylePreset, get_property.
  rewrite Hs, H1, H2, H3.
  destruct (truthy key); reflexivity.
Qed.

(** C5, at the key "constructor": it is none of the five presets, yet the
    lookup on the object literal finds the member inherited from
    [Object.prototype], and the prompt forwarded for "a" is
    "a, function Object() { [native code] }". *)
Theorem inherited_style_key_forwarded :
  map (fun c => option_map body_prompt (forwarded c))
    (snd (run (Generate.POST (studio_world Missing)
                 (Json (generation (Some (lit "a")) None
                          (Some (lit "constructor")) None))))) =
  [ Some (lit "a, function Object() { [native code] }") ].
Proof. vm_compute; reflexivity. Qed.

(** ** Inference time *)

Lemma upstream_success_inferenceTime response j tr b64 model t st tr' :
  json response = Returned j ->
  Generate.upstream_success response tr =
    (Returned {| body := Generate.Success b64 model t; init_status := st |},
     tr') ->
  t = if truthy_num (Number (sj_metrics_inference j))
      then Some (Number (sj_metrics_inference j))
      else None.
Proof.
  intros Hj.
  unfold Generate.upstream_success, Generate.respond, bind, await, ret.
  rewrite Hj.
  destruct (sj_artifact0_base64 j) as [b|]; [|discriminate].
  destruct (truthy b); [|discriminate].
  intros H; injection H as _ _ <- _ _; reflexivity.
Qed.

(** C10, as the code has it: on a successful generation the vendor's
    metric [m] is converted by [Number]; [inferenceTime] is left out when
    the result is 0, -0 or NaN (so also when [m] is missing or not
    convertible), and present with the converted number otherwise, the
    infinities included, which the JSON response writes as [null]. *)
Theorem inference_time_reported w payload b64 model t st tr :
  run (Generate.POST w (Json payload)) =
    (Returned {| body := Generate.Success b64 model t; init_status := st |},
     tr) ->
  exists authorization request response j,
    tr = [StabilityGenerate authorization request] /\
    stability w authorization request = Returned response /\
    json response = Returned j /\
    t = match Number (sj_metrics_inference j) with
        | S754_zero _ | S754_nan => None
        | S754_infinity s => Some (S754_infinity s)
        | S754_finite s m e => Some (S754_finite s m e)
        end /\
    stringify_member t =
      match Number (sj_metrics_inference j) with
      | S754_zero _ | S754_nan => Omitted
      | S754_infinity _ => WireNull
      | S754_finite s m e => WireNumber (S754_finite s m e)
      end.
Proof.
  unfold run, Generate.POST.
  destruct (truthy_opt (STABILITY_API_KEY (env w))); simpl; [|discriminate].
  destruct (truthy_opt (option_map trim (Generate.prompt payload)));
    simpl; [|discriminate].
  unfold bind, fetch.
  match goal with |- context [stability w ?a ?b] =>
    destruct (stability w a b) as [response|e] eqn:Hw; [|discriminate]
  end.
  destruct (ok response); simpl.
  - intros H.
    destruct (json response) as [j|e] eqn:Hj.
    + match type of Hw with stability w ?a ?b = _ =>
        exists a, b, response, j
      end.
      pose proof (f_equal snd H) as Htr.
      rewrite upstream_success_trace in Htr; simpl in Htr.
      apply (upstream_success_inferenceTime _ _ Hj) in H.
      repeat split; auto.
      * rewrite H; destruct (Number (sj_metrics_inference j)); reflexivity.
      * rewrite H; destruct (Number (sj_metrics_inference j)); reflexivity.
    + unfold Generate.upstream_success, bind, await in H.
      rewrite Hj in H; discriminate.
  - unfold Generate.upstream_failure, Generate.respond, bind, try_catch,
      await, ret.
    destruct (json response); simpl.
    + discriminate.
    + destruct (text_after_json response); discriminate.
Qed.

Lemma inference_time_reported_witness :
  exists authorization request response j,
    [ StabilityGenerate (lit "Bearer sk-test")
        (Generate.request_body (lit "a")
           (generation (Some (lit "a")) None None None)) ] =
    [ StabilityGenerate authorization request ] /\
    stability (studio_world (Num num_7_5)) authorization request =
      Returned response /\
    json response = Returned j /\
    Some num_7_5 =
      match Number (sj_metrics_inference j) with
      | S754_zero _ | S754_nan => None
      | S754_infinity s => Some (S754_infinity s)
      | S754_finite s m e => Some (S754_finite s m e)
      end /\
    stringify_member (Some num_7_5) =
      match Number (sj_metrics_inference j) with
      | S754_zero _ | S754_nan => Omitted
      | S754_infinity _ => WireNull
      | S754_finite s m e => WireNumber (S754_finite s m e)
      end.
Proof.
  apply (@inference_time_reported (studio_world (Num num_7_5))
           (generation (Some (lit "a")) None None None)
           (lit "iVBORw0KGgo=") None (Some num_7_5) 200).
  vm_compute; reflexivity.
Defined.

(** C10, as stated, fails on a metric that converts to Infinity: it is
    not finite, and [inferenceTime] is present all the same. *)
Lemma infinite_inference_time_reported :
  inferenceTime_of
    (fst (run (Generate.POST (studio_world (Num Infinity))
                 (Json (generation (Some (lit "a")) None None None))))) =
  Some Infinity
  /\
  stringify_member
    (inferenceTime_of
       (fst (run (Generate.POST (studio_world (Num Infinity))
                    (Json (generation (Some (lit "a")) None None None)))))) =
  WireNull.
Proof. split; vm_compute; reflexivity. Qed.

(* ================================================================== *)
(** * The upload handler *)

Lemma ensureEnv_trace name value tr :
  snd (Upload.ensureEnv name value tr) = tr.
Proof.
  unfold Upload.ensureEnv, ret, throw.
  destruct value as [v|]; [destruct (truthy v)|]; reflexivity.
Qed.

Lemma ensureEnv_inv name value tr o tr' :
  Upload.ensureEnv name value tr = (o, tr') ->
  tr' = tr /\
  (o = Returned (or_else value []) /\ truthy_opt value = true \/
   exists e, o = Threw e /\ truthy_opt value = false).
Proof.
  unfold Upload.ensureEnv, ret, throw.
  destruct value as [v|]; simpl.
  - destruct (truthy v) eqn:T; intros H; injection H as <- <-; split; eauto.
  - intros H; injection H as <- <-; split; eauto.
Qed.

(** The hosting step makes at most one outbound call, to the hosting
    service. *)
Lemma uploadToCloudinary_trace sha1_hex w imageData tr :
  snd (Upload.uploadToCloudinary sha1_hex w imageData tr) = tr \/
  exists cloudName formData,
    snd (Upload.uploadToCloudinary sha1_hex w imageData tr) =
    tr ++ [CloudinaryUpload cloudName formData].
Proof.
  unfold Upload.uploadToCloudinary, bind.
  repeat match goal with
  | |- context [Upload.ensureEnv ?n ?v ?t] =>
    let o := fresh "o" in let t' := fresh "t" in let E := fresh "E" in
    destruct (Upload.ensureEnv n v t) as [o t'] eqn:E;
    apply ensureEnv_inv in E; destruct E as [-> _];
    destruct o; [|left; reflexivity]
  end.
  right.
  unfold fetch, await, throw, ret.
  match goal with |- context [cloudinary w ?a ?b] =>
    exists a, b; destruct (cloudinary w a b) as [response|e]
  end; [|reflexivity].
  destruct (ok response); simpl.
  - destruct (json response) as [[|u]|e]; [reflexivity| |reflexivity].
    destruct (truthy_opt u); reflexivity.
  - destruct (text response); reflexivity.
Qed.

(** The publish step makes outbound calls to the social platform only. *)
Lemma publishToInstagram_trace w imageUrl caption prompt style tr :
  exists calls,
    snd (Upload.publishToInstagram w imageUrl caption prompt style tr) =
    tr ++ calls /\
    forallb is_publish_call calls = true.
Proof.
  unfold Upload.publishToInstagram, bind.
  repeat match goal with
  | |- context [Upload.ensureEnv ?n ?v ?t] =>
    let o := fresh "o" in let t' := fresh "t" in let E := fresh "E" in
    destruct (Upload.ensureEnv n v t) as [o t'] eqn:E;
    apply ensureEnv_inv in E; destruct E as [-> _];
    destruct o; [|exists []; rewrite app_nil_r; split; reflexivity]
  end.
  unfold fetch, await, throw, ret.
  match goal with |- context [graph_media w ?a ?b] =>
    destruct (graph_media w a b) as [r1|e];
    [|exists [GraphMedia a b]; split; reflexivity]
  end.
  destruct (json r1) as [j1|e];
    [|eexists [_]; split; reflexivity].
  unfold Upload.lacks_id, ret, throw.
  destruct (ok r1); cbn [negb];
    [destruct j1 as [|i1 m1]; [eexists [_]; split; reflexivity|];
     cbn [id]; destruct (truthy_opt i1); cbn [negb];
     [|eexists [_]; split; reflexivity]
    |eexists [_]; split; reflexivity].
  match goal with |- context [graph_media_publish w ?a ?b] =>
    destruct (graph_media_publish w a b) as [r2|e]
  end.
  - destruct (json r2) as [j2|e].
    + destruct (ok r2); cbn [negb];
        [destruct j2 as [|i2 m2];
         [|cbn [id]; destruct (truthy_opt i2); cbn [negb]]|];
        eexists [_; _]; rewrite <- app_assoc; split; reflexivity.
    + eexists [_; _]; rewrite <- app_assoc; split; reflexivity.
  - eexists [_; _]; rewrite <- app_assoc; split; reflexivity.
Qed.

(** X20: a URL the hosting step returns is the non-empty [secure_url] of
    an ok answer of the hosting service to the one call the step made. *)
Lemma uploadToCloudinary_returns sha1_hex w imageData tr url tr' :
  Upload.uploadToCloudinary sha1_hex w imageData tr = (Returned url, tr') ->
  exists cloudName formData response j,
    tr' = tr ++ [CloudinaryUpload cloudName formData] /\
    cloudinary w cloudName formData = Returned response /\
    ok response = true /\
    json response = Returned j /\
    secure_url j = Some url /\ truthy url = true.
Proof.
  unfold Upload.uploadToCloudinary, bind.
  repeat match goal with
  | |- context [Upload.ensureEnv ?n ?v ?t] =>
    let o := fresh "o" in let t' := fresh "t" in let E := fresh "E" in
    destruct (Upload.ensureEnv n v t) as [o t'] eqn:E;
    apply ensureEnv_inv in E; destruct E as [-> _];
    destruct o; [|discriminate]
  end.
  unfold fetch, await, throw, ret.
  match goal with |- context [cloudinary w ?a ?b] =>
    destruct (cloudinary w a b) as [response|e] eqn:Hw; [|discriminate]
  end.
  destruct (ok response) eqn:Hok; simpl.
  - destruct (json response) as [j|e] eqn:Hj; [|discriminate].
    destruct j as [|[u|]]; simpl; try discriminate.
    destruct (truthy u) eqn:T; simpl; [|discriminate].
    intros H; injection H as <- <-.
    match type of Hw with cloudinary w ?a ?b = _ =>
      exists a, b, response, (CloudinaryObject (Some u))
    end.
    auto 10.
  - destruct (text response); discriminate.
Qed.

(** X19: step 2 is attempted only after step 1 has succeeded: a run that
    calls the social platform has a hosting step that returned a URL. *)
Lemma publish_only_after_hosting sha1_hex w payload :
  existsb is_publish_call
    (snd (run (Upload.POST sha1_hex w (Json payload)))) = true ->
  exists url tr1,
    Upload.uploadToCloudinary sha1_hex w
      (or_else (Upload.imageData payload) []) [] = (Returned url, tr1).
Proof.
  unfold run, Upload.POST.
  destruct (truthy_opt (Upload.imageData payload)); simpl; [|discriminate].
  unfold bind, attempt.
  destruct (Upload.uploadToCloudinary sha1_hex w
              (or_else (Upload.imageData payload) []) []) as [[url|e] tr1] eqn:Hu.
  - eauto.
  - destruct (uploadToCloudinary_trace sha1_hex w
                (or_else (Upload.imageData payload) []) [])
      as [H|[cn [fd H]]]; rewrite Hu in H; simpl in H; subst tr1;
      discriminate.
Qed.

(** The image check of line 35, on every body that parses to a value
    other than [null]: when [imageData] is missing or empty the request
    is answered 400 and makes no outbound call, neither to the hosting
    service nor to the social platform. *)
Lemma missing_image_rejected sha1_hex w payload :
  truthy_opt (Upload.imageData payload) = false ->
  run (Upload.POST sha1_hex w (Json payload)) =
  ( Returned {| body := Upload.Failure (lit "imageData is required.") None;
                init_status := 400 |},
    [] ).
Proof.
  intros H; unfold run, Upload.POST; rewrite H; reflexivity.
Qed.

Lemma missing_image_rejected_witness :
  run (Upload.POST sample_digest (studio_world Missing) (Json (upload None))) =
  ( Returned {| body := Upload.Failure (lit "imageData is required.") None;
                init_status := 400 |},
    [] ).
Proof.
  apply (@missing_image_rejected sample_digest (studio_world Missing)
           (upload None)).
  reflexivity.
Defined.

(** C7, at the body [null]: the request has no [imageData], yet it is not
    answered 400: the destructuring of line 33 throws a TypeError before
    the image check and outside any [try], so the handler rejects and
    returns no response at all.  It makes no outbound call. *)
Theorem upload_null_body_rejects sha1_hex w :
  run (Upload.POST sha1_hex w JsonNull) =
  ( Threw (ErrorObject
             (lit "Cannot destructure property 'imageData' of 'payload' as it is null.")),
    [] )
  /\ status_of (fst (run (Upload.POST sha1_hex w JsonNull))) = None.
Proof. split; reflexivity. Qed.

(** C4: when the hosting step throws, the Upload request is answered 502
    and no call to the social platform (container creation, publication)
    is made. *)
Theorem hosting_failure_aborts sha1_hex w payload e tr :
  truthy_opt (Upload.imageData payload) = true ->
  Upload.uploadToCloudinary sha1_hex w
    (or_else (Upload.imageData payload) []) [] = (Threw e, tr) ->
  run (Upload.POST sha1_hex w (Json payload)) =
  ( Returned
      {| body := Upload.Failure
                   (Upload.failure_text (lit "Cloudinary upload failed") e)
                   None;
         init_status := 502 |},
    tr )
  /\ existsb is_publish_call tr = false.
Proof.
  intros Hi Hu; split.
  - unfold run, Upload.POST; rewrite Hi; simpl.
    unfold bind, attempt; rewrite Hu; reflexivity.
  - destruct (uploadToCloudinary_trace sha1_hex w
                (or_else (Upload.imageData payload) []) [])
      as [H|[cn [fd H]]]; rewrite Hu in H; simpl in H; subst tr; reflexivity.
Qed.

Lemma hosting_failure_aborts_witness :
  status_of
    (fst (run (Upload.POST sample_digest unhosted_world
                 (Json (upload (Some (lit "iVBORw0KGgo="))))))) = Some 502%N
  /\
  existsb is_publish_call
    (snd (run (Upload.POST sample_digest unhosted_world
                 (Json (upload (Some (lit "iVBORw0KGgo="))))))) = false.
Proof.
  edestruct (@hosting_failure_aborts sample_digest unhosted_world
               (upload (Some (lit "iVBORw0KGgo=")))) as [H1 H2];
    [reflexivity | vm_compute; reflexivity | ].
  rewrite H1; split; [reflexivity | exact H2].
Defined.

(** C3: when the hosting step has returned a URL and the publish step
    then throws, for whatever reason, the Upload request is answered 502
    with that URL as [imageUrl]. *)
Theorem publish_failure_keeps_url sha1_hex w payload url tr1 e tr2 :
  truthy_opt (Upload.imageData payload) = true ->
  Upload.uploadToCloudinary sha1_hex w
    (or_else (Upload.imageData payload) []) [] = (Returned url, tr1) ->
  Upload.publishToInstagram w url (Upload.caption payload)
    (Upload.prompt payload) (Upload.style payload) tr1 = (Threw e, tr2) ->
  run (Upload.POST sha1_hex w (Json payload)) =
  ( Returned
      {| body := Upload.Failure
                   (Upload.failure_text (lit "Instagram publish failed") e)
                   (Some url);
         init_status := 502 |},
    tr2 ).
Proof.
  intros Hi Hu Hp.
  unfold run, Upload.POST; rewrite Hi; simpl.
  unfold bind, attempt; rewrite Hu.
  unfold try_catch; rewrite Hp; reflexivity.
Qed.

Lemma publish_failure_keeps_url_witness :
  fst (run (Upload.POST sample_digest (studio_world Missing)
              (Json (upload (Some (lit "iVBORw0KGgo=")))))) =
  Returned
    {| body := Upload.Failure
         (lit "Instagram publish failed: INSTAGRAM_ACCESS_TOKEN is not set. Please configure it in your environment.")
         (Some (lit "https://res.cloudinary.com/cloud/a.png"));
       init_status := 502 |}.
Proof.
  erewrite (@publish_failure_keeps_url sample_digest (studio_world Missing)
              (upload (Some (lit "iVBORw0KGgo="))));
    [ | reflexivity | vm_compute; reflexivity | vm_compute; reflexivity ].
  reflexivity.
Defined.

(** ** Caption composition *)

Lemma join_snoc sep xs x :
  exists lead, join sep (xs ++ [x]) = lead ++ x.
Proof.
  induction xs as [|y ys IH]; simpl.
  - exists []; reflexivity.
  - destruct IH as [lead IH]; rewrite IH.
    destruct (ys ++ [x]) eqn:E.
    + destruct ys; discriminate.
    + exists (y ++ sep ++ lead); rewrite <- !app_assoc; reflexivity.
Qed.

(** The caption is the blank-line join of its non-empty segments. *)
Lemma finalCaption_segments caption prompt style :
  Upload.finalCaption caption prompt style =
  join [LF; LF]
    ((match caption with
      | Some c => match trim c with [] => [] | x :: t => [x :: t] end
      | None => []
      end)
     ++ (match prompt with
         | Some (x :: p) => [lit "Prompt: " ++ x :: p]
         | Some [] | None => []
         end)
     ++ (match style with
         | Some (x :: s) => [lit "Style: " ++ x :: s]
         | Some [] | None => []
         end)
     ++ [Upload.hashtags]).
Proof.
  unfold Upload.finalCaption.
  f_equal.
  destruct caption as [c|]; simpl option_map; unfold or_else;
    [destruct (trim c) as [|x t]|];
    destruct prompt as [[|y p]|]; destruct style as [[|z s]|]; reflexivity.
Qed.

(** C2: the composed caption is the blank-line join of the non-empty
    segments among the trimmed caption, "Prompt: <prompt>", "Style:
    <style>" and the hashtag line; for "A", "B", "C" it is the four
    segments in that order; with an empty caption the leading segment is
    left out; the hashtag line always ends it. *)
Theorem finalCaption_composition :
  Upload.finalCaption (Some (lit "A")) (Some (lit "B")) (Some (lit "C")) =
    lit "A" ++ [LF; LF] ++ lit "Prompt: B" ++ [LF; LF] ++ lit "Style: C"
      ++ [LF; LF] ++ lit "#aiart #figuredrawing #digitalart #agentic"
  /\
  Upload.finalCaption (Some []) (Some (lit "B")) (Some (lit "C")) =
    lit "Prompt: B" ++ [LF; LF] ++ lit "Style: C"
      ++ [LF; LF] ++ lit "#aiart #figuredrawing #digitalart #agentic"
  /\
  (forall prompt style,
     Upload.finalCaption (Some []) prompt style =
     join [LF; LF]
       ((match prompt with
         | Some (x :: p) => [lit "Prompt: " ++ x :: p]
         | Some [] | None => []
         end)
        ++ (match style with
            | Some (x :: s) => [lit "Style: " ++ x :: s]
            | Some [] | None => []
            end)
        ++ [lit "#aiart #figuredrawing #digitalart #agentic"]))
  /\
  (forall caption prompt style,
     Upload.finalCaption caption prompt style =
     join [LF; LF]
       ((match caption with
         | Some c => match trim c with [] => [] | x :: t => [x :: t] end
         | None => []
         end)
        ++ (match prompt with
            | Some (x :: p) => [lit "Prompt: " ++ x :: p]
            | Some [] | None => []
            end)
        ++ (match style with
            | Some (x :: s) => [lit "Style: " ++ x :: s]
            | Some [] | None => []
            end)
        ++ [lit "#aiart #figuredrawing #digitalart #agentic"]))
  /\
  (forall caption prompt style,
     exists lead,
       Upload.finalCaption caption prompt style =
       lead ++ lit "#aiart #figuredrawing #digitalart #agentic").
Proof.
  split; [vm_compute; reflexivity|].
  split; [vm_compute; reflexivity|].
  split; [intros; apply (finalCaption_segments (Some []))|].
  split; [exact finalCaption_segments|].
  intros caption prompt style.
  rewrite finalCaption_segments, !app_assoc.
  apply join_snoc.
Qed.


(* ================================================================== *)
(** * The generate handler: the vendor call and its answers *)

Lemma truthy_opt_set_to (value : option jsstring) :
  truthy_opt value = true ->
  exists s, set_to value s /\ or_else value [] = s.
Proof.
  destruct value as [s|]; simpl; [|discriminate].
  intros T; exists s; unfold set_to; rewrite T; auto.
Qed.

Lemma set_to_truthy_opt (value : option jsstring) s :
  set_to value s -> truthy_opt value = true /\ or_else value [] = s.
Proof. intros [-> T]; simpl; rewrite T; auto. Qed.

(** A run that gets past the two guards is the vendor call followed by
    the handling of its answer. *)
Lemma generate_run w payload key p :
  set_to (STABILITY_API_KEY (env w)) key ->
  Generate.prompt payload = Some p ->
  truthy (trim p) = true ->
  run (Generate.POST w (Json payload)) =
  match stability w (lit "Bearer " ++ key)
          (Generate.request_body (trim p) payload) with
  | Returned response =>
    (if negb (ok response) then Generate.upstream_failure response
     else Generate.upstream_success response)
      [ StabilityGenerate (lit "Bearer " ++ key)
          (Generate.request_body (trim p) payload) ]
  | Threw e =>
    (Threw e,
     [ StabilityGenerate (lit "Bearer " ++ key)
         (Generate.request_body (trim p) payload) ])
  end.
Proof.
  intros [Hk Tk] Hp Tp.
  unfold run, Generate.POST.
  rewrite Hk, Hp; cbn [truthy_opt option_map or_else].
  rewrite Tk, Tp; cbn [negb].
  unfold bind, fetch; cbn [app].
  destruct (stability w (lit "Bearer " ++ key)
              (Generate.request_body (trim p) payload)); reflexivity.
Qed.

(** What a call in the trace tells about the run. *)
Lemma generate_call_origin w request c :
  In c (snd (run (Generate.POST w request))) ->
  exists key payload p,
    set_to (STABILITY_API_KEY (env w)) key /\
    request = Json payload /\
    Generate.prompt payload = Some p /\
    truthy (trim p) = true /\
    c = StabilityGenerate (lit "Bearer " ++ key)
          (Generate.request_body (trim p) payload).
Proof.
  destruct request as [| |payload].
  - unfold run, Generate.POST.
    destruct (truthy_opt (STABILITY_API_KEY (env w))); intros [].
  - unfold run, Generate.POST.
    destruct (truthy_opt (STABILITY_API_KEY (env w))); intros [].
  - rewrite generate_trace.
    destruct (truthy_opt (STABILITY_API_KEY (env w))) eqn:Tk; simpl; [|tauto].
    destruct (Generate.prompt payload) as [p|] eqn:Hp; simpl; [|tauto].
    destruct (truthy (trim p)) eqn:Tp; simpl; [|tauto].
    intros [<-|[]].
    apply truthy_opt_set_to in Tk; destruct Tk as [key [Hk Ek]].
    exists key, payload, p; rewrite Ek; auto.
Qed.

(** X1: the generate handler calls the vendor at most once, at the fixed
    endpoint, and only for a JSON body with a non-blank prompt while the
    credential is set; the call carries "Bearer <key>" and the body built
    from the trimmed prompt. *)
Theorem generate_single_call w request c :
  In c (snd (run (Generate.POST w request))) ->
  snd (run (Generate.POST w request)) = [c] /\
  url_of c = Generate.STABILITY_ENDPOINT /\
  exists key payload p,
    set_to (STABILITY_API_KEY (env w)) key /\
    request = Json payload /\
    Generate.prompt payload = Some p /\
    truthy (trim p) = true /\
    c = StabilityGenerate (lit "Bearer " ++ key)
          (Generate.request_body (trim p) payload).
Proof.
  intros Hc.
  destruct (@generate_call_origin w request c Hc)
    as (key & payload & p & Hk & -> & Hp & Tp & ->).
  split; [|split; [reflexivity|eauto 10]].
  rewrite generate_trace.
  destruct (set_to_truthy_opt Hk) as [-> ->].
  rewrite Hp; simpl; rewrite Tp; reflexivity.
Qed.

Lemma generate_single_call_witness :
  snd (run (Generate.POST (studio_world Missing)
              (Json (generation (Some (lit " a ")) None None None)))) =
  [ StabilityGenerate (lit "Bearer sk-test")
      (Generate.request_body (lit "a")
         (generation (Some (lit " a ")) None None None)) ].
Proof.
  apply (@generate_single_call (studio_world Missing)
           (Json (generation (Some (lit " a ")) None None None))).
  vm_compute; left; reflexivity.
Defined.

(** X2: with the credential set and a prompt that is not blank, the
    vendor is called, exactly once, for every payload whose members have
    their declared types (strings; [guidance] a number), whatever those
    members hold.  (A truthy [negativePrompt] that is not a string is
    outside [GenerationPayload]: line 59 throws on it before the call.) *)
Theorem generate_reaches_vendor w payload key p :
  set_to (STABILITY_API_KEY (env w)) key ->
  Generate.prompt payload = Some p ->
  forallb is_white_space p = false ->
  snd (run (Generate.POST w (Json payload))) =
  [ StabilityGenerate (lit "Bearer " ++ key)
      (Generate.request_body (trim p) payload) ].
Proof.
  intros Hk Hp Hb.
  assert (Tp : truthy (trim p) = true).
  { destruct (truthy (trim p)) eqn:T; [reflexivity|].
    apply truthy_false_iff, trim_nil_iff in T; congruence. }
  rewrite generate_trace.
  destruct (set_to_truthy_opt Hk) as [-> ->].
  rewrite Hp; simpl; rewrite Tp; reflexivity.
Qed.

Lemma generate_reaches_vendor_witness :
  snd (run (Generate.POST bare_world
              (Json (generation (Some (lit "a")) None None None)))) = []
  /\
  snd (run (Generate.POST unhosted_world
              (Json (generation (Some (lit "a")) None None None)))) =
  [ StabilityGenerate (lit "Bearer " ++ lit "sk-test")
      (Generate.request_body (trim (lit "a"))
         (generation (Some (lit "a")) None None None)) ].
Proof.
  split; [reflexivity|].
  apply (@generate_reaches_vendor unhosted_world
           (generation (Some (lit "a")) None None None)
           (lit "sk-test") (lit "a")).
  - split; reflexivity.
  - reflexivity.
  - reflexivity.
Defined.

(** X3: besides the prompt, aspect ratio and guidance, the body posted
    to the vendor has mode "text-to-image" and output format "png", and
    its negative prompt is the trimmed [negativePrompt], left out when
    that is absent, empty or blank. *)
Theorem negative_prompt_forwarded w payload c b :
  In c (snd (run (Generate.POST w (Json payload)))) ->
  forwarded c = Some b ->
  mode b = lit "text-to-image" /\
  output_format b = lit "png" /\
  negative_prompt b =
    match Generate.negativePrompt payload with
    | Some s => match trim s with [] => None | x :: t => Some (x :: t) end
    | None => None
    end.
Proof.
  intros Hc Hb; apply generate_call_inv in Hc; destruct Hc as [_ Hc].
  rewrite Hc in Hb; injection Hb as <-.
  unfold Generate.request_body, Generate.knockOut;
    cbn [mode output_format negative_prompt].
  repeat split.
  destruct (Generate.negativePrompt payload) as [[|x s]|]; try reflexivity.
  cbn [or_else truthy].
  destruct (trim (x :: s)); reflexivity.
Qed.

Lemma negative_prompt_forwarded_witness :
  mode (Generate.request_body (lit "a")
          (generation (Some (lit "a")) None None None)) =
    lit "text-to-image" /\
  output_format (Generate.request_body (lit "a")
                   (generation (Some (lit "a")) None None None)) =
    lit "png" /\
  negative_prompt (Generate.request_body (lit "a")
                     (generation (Some (lit "a")) None None None)) = None.
Proof.
  apply (@negative_prompt_forwarded (studio_world Missing)
           (generation (Some (lit "a")) None None None)
           (StabilityGenerate (lit "Bearer sk-test")
              (Generate.request_body (lit "a")
                 (generation (Some (lit "a")) None None None)))).
  - vm_compute; left; reflexivity.
  - reflexivity.
Defined.

(** X4: when the vendor answers with a status that is not ok and a JSON
    body, the handler answers 502 with the vendor's status and, as error,
    the body's [message] if it has a non-empty one, else its [error] if
    non-empty, else the whole body as text. *)
Theorem upstream_error_relayed w payload authorization request response j :
  In (StabilityGenerate authorization request)
    (snd (run (Generate.POST w (Json payload)))) ->
  stability w authorization request = Returned response ->
  ok response = false ->
  json response = Returned j ->
  run (Generate.POST w (Json payload)) =
  ( Returned
      {| body := Generate.Failure
           (match sj_message j, sj_error j with
            | Some (x :: m), _ => x :: m
            | _, Some (y :: e) => y :: e
            | _, _ => sj_stringified j
            end)
           (Some (status response));
         init_status := 502 |},
    [ StabilityGenerate authorization request ] ).
Proof.
  intros Hc Hw Hok Hj.
  destruct (@generate_call_origin _ _ _ Hc)
    as (key & payload' & p & Hk & E & Hp & Tp & Ec).
  injection E as <-.
  assert (Ea : authorization = lit "Bearer " ++ key) by congruence.
  assert (Er : request = Generate.request_body (trim p) payload)
    by congruence.
  subst authorization request.
  rewrite (@generate_run w payload key p Hk Hp Tp), Hw, Hok; cbn [negb].
  unfold Generate.upstream_failure, Generate.respond, bind, try_catch,
    await, ret.
  rewrite Hj.
  destruct (sj_message j) as [[|x m]|]; destruct (sj_error j) as [[|y e]|];
    reflexivity.
Qed.

Lemma upstream_error_relayed_witness :
  fst (run (Generate.POST
              (world_with full_env
                 (Returned (response_of false 403 []
                    (Returned (vendor_json (Some (lit "bad key")) None))))
                 unreachable unreachable unreachable)
              (Json (generation (Some (lit "a")) None None None)))) =
  Returned {| body := Generate.Failure (lit "bad key") (Some 403%N);
              init_status := 502 |}.
Proof.
  erewrite (@upstream_error_relayed
              (world_with full_env
                 (Returned (response_of false 403 []
                    (Returned (vendor_json (Some (lit "bad key")) None))))
                 unreachable unreachable unreachable)
              (generation (Some (lit "a")) None None None));
    [ | vm_compute; left; reflexivity
      | reflexivity | reflexivity | reflexivity ].
  reflexivity.
Defined.

(** X5: when the vendor answers with a status that is not ok and a body
    that is not JSON, the body text is not relayed: [json()] has read the
    body, so [text()] in the catch rejects and the handler itself rejects
    with that error, returning no response; only for a response that has
    no body (a null body status) does [text()] still give the empty text,
    and the handler answers 502 with an empty error. *)
Theorem upstream_error_body_unreadable w payload authorization request
  response e :
  In (StabilityGenerate authorization request)
    (snd (run (Generate.POST w (Json payload)))) ->
  stability w authorization request = Returned response ->
  ok response = false ->
  json response = Threw e ->
  run (Generate.POST w (Json payload)) =
  ( if null_body_status (status response)
    then Returned {| body := Generate.Failure [] (Some (status response));
                     init_status := 502 |}
    else Threw body_unusable,
    [ StabilityGenerate authorization request ] ).
Proof.
  intros Hc Hw Hok Hj.
  destruct (@generate_call_origin _ _ _ Hc)
    as (key & payload' & p & Hk & E & Hp & Tp & Ec).
  injection E as <-.
  assert (Ea : authorization = lit "Bearer " ++ key) by congruence.
  assert (Er : request = Generate.request_body (trim p) payload)
    by congruence.
  subst authorization request.
  rewrite (@generate_run w payload key p Hk Hp Tp), Hw, Hok; cbn [negb].
  unfold Generate.upstream_failure, Generate.respond, bind, try_catch,
    await, ret, text_after_json.
  rewrite Hj.
  destruct (null_body_status (status response)); reflexivity.
Qed.

Lemma upstream_error_body_unreadable_witness :
  fst (run (Generate.POST
              (world_with full_env
                 (Returned (response_of false 503 (lit "Bad Gateway")
                    (Threw (ErrorObject (lit "Unexpected token")))))
                 unreachable unreachable unreachable)
              (Json (generation (Some (lit "a")) None None None)))) =
  Threw body_unusable.
Proof.
  erewrite (@upstream_error_body_unreadable
              (world_with full_env
                 (Returned (response_of false 503 (lit "Bad Gateway")
                    (Threw (ErrorObject (lit "Unexpected token")))))
                 unreachable unreachable unreachable)
              (generation (Some (lit "a")) None None None));
    [ | vm_compute; left; reflexivity
      | reflexivity | reflexivity | reflexivity ].
  reflexivity.
Defined.

(** X6: when the vendor answers ok with a JSON body whose first artifact
    has no image, or an empty one, the handler answers 502 "No image
    returned from the Stability API." *)
Theorem missing_artifact_rejected w payload authorization request response j :
  In (StabilityGenerate authorization request)
    (snd (run (Generate.POST w (Json payload)))) ->
  stability w authorization request = Returned response ->
  ok response = true ->
  json response = Returned j ->
  truthy_opt (sj_artifact0_base64 j) = false ->
  run (Generate.POST w (Json payload)) =
  ( Returned
      {| body := Generate.Failure
           (lit "No image returned from the Stability API.") None;
         init_status := 502 |},
    [ StabilityGenerate authorization request ] ).
Proof.
  intros Hc Hw Hok Hj Ha.
  destruct (@generate_call_origin _ _ _ Hc)
    as (key & payload' & p & Hk & E & Hp & Tp & Ec).
  injection E as <-.
  assert (Ea : authorization = lit "Bearer " ++ key) by congruence.
  assert (Er : request = Generate.request_body (trim p) payload)
    by congruence.
  subst authorization request.
  rewrite (@generate_run w payload key p Hk Hp Tp), Hw, Hok; cbn [negb].
  unfold Generate.upstream_success, Generate.respond, bind, await, ret.
  rewrite Hj.
  destruct (sj_artifact0_base64 j) as [b|]; [|reflexivity].
  simpl in Ha; rewrite Ha; reflexivity.
Qed.

Lemma missing_artifact_rejected_witness :
  fst (run (Generate.POST
              (world_with full_env
                 (Returned (response_of true 200 []
                    (Returned (vendor_json None (Some [])))))
                 unreachable unreachable unreachable)
              (Json (generation (Some (lit "a")) None None None)))) =
  Returned {| body := Generate.Failure
                (lit "No image returned from the Stability API.") None;
              init_status := 502 |}.
Proof.
  erewrite (@missing_artifact_rejected
              (world_with full_env
                 (Returned (response_of true 200 []
                    (Returned (vendor_json None (Some [])))))
                 unreachable unreachable unreachable)
              (generation (Some (lit "a")) None None None));
    [ | vm_compute; left; reflexivity
      | reflexivity | reflexivity | reflexivity | reflexivity ].
  reflexivity.
Defined.

(** X7: the handler catches nothing around the vendor call: when the
    [fetch] rejects, or the body of an ok answer is not JSON, the handler
    itself rejects with that very error and returns no response. *)
Theorem vendor_failure_escapes w payload authorization request e :
  In (StabilityGenerate authorization request)
    (snd (run (Generate.POST w (Json payload)))) ->
  stability w authorization request = Threw e \/
  (exists response,
     stability w authorization request = Returned response /\
     ok response = true /\ json response = Threw e) ->
  run (Generate.POST w (Json payload)) =
  (Threw e, [ StabilityGenerate authorization request ]).
Proof.
  intros Hc Hw.
  destruct (@generate_call_origin _ _ _ Hc)
    as (key & payload' & p & Hk & E & Hp & Tp & Ec).
  injection E as <-.
  assert (Ea : authorization = lit "Bearer " ++ key) by congruence.
  assert (Er : request = Generate.request_body (trim p) payload)
    by congruence.
  subst authorization request.
  rewrite (@generate_run w payload key p Hk Hp Tp).
  destruct Hw as [Hw|[response [Hw [Hok Hj]]]]; rewrite Hw; [reflexivity|].
  rewrite Hok; cbn [negb].
  unfold Generate.upstream_success, bind, await; rewrite Hj; reflexivity.
Qed.

Lemma vendor_failure_escapes_witness :
  fst (run (Generate.POST unhosted_world
              (Json (generation (Some (lit "a")) None None None)))) =
  Threw (ErrorObject (lit "fetch failed")).
Proof.
  erewrite (@vendor_failure_escapes unhosted_world
              (generation (Some (lit "a")) None None None));
    [ | vm_compute; left; reflexivity | left; reflexivity ].
  reflexivity.
Defined.

(** X8: when the vendor answers ok with a first artifact holding a
    non-empty image, the handler answers 200 with that image and, as
    model, the body's [model_id] or, when the body has none, the
    "stability-model-id" response header. *)
Theorem generation_succeeds w payload authorization request response j b64 :
  In (StabilityGenerate authorization request)
    (snd (run (Generate.POST w (Json payload)))) ->
  stability w authorization request = Returned response ->
  ok response = true ->
  json response = Returned j ->
  set_to (sj_artifact0_base64 j) b64 ->
  exists t,
    run (Generate.POST w (Json payload)) =
    ( Returned
        {| body := Generate.Success b64
             (match sj_model_id j with
              | Some m => Some m
              | None => headers_get response (lit "stability-model-id")
              end)
             t;
           init_status := 200 |},
      [ StabilityGenerate authorization request ] ).
Proof.
  intros Hc Hw Hok Hj [Ha Tb].
  destruct (@generate_call_origin _ _ _ Hc)
    as (key & payload' & p & Hk & E & Hp & Tp & Ec).
  injection E as <-.
  assert (Ea : authorization = lit "Bearer " ++ key) by congruence.
  assert (Er : request = Generate.request_body (trim p) payload)
    by congruence.
  subst authorization request.
  rewrite (@generate_run w payload key p Hk Hp Tp), Hw, Hok; cbn [negb].
  unfold Generate.upstream_success, Generate.respond, bind, await, ret.
  rewrite Hj, Ha, Tb.
  eexists; reflexivity.
Qed.

Lemma generation_succeeds_witness :
  exists t,
    run (Generate.POST (studio_world Missing)
           (Json (generation (Some (lit "a")) None None None))) =
    ( Returned {| body := Generate.Success (lit "iVBORw0KGgo=") None t;
                  init_status := 200 |},
      [ StabilityGenerate (lit "Bearer sk-test")
          (Generate.request_body (lit "a")
             (generation (Some (lit "a")) None None None)) ] ).
Proof.
  apply (@generation_succeeds (studio_world Missing)
           (generation (Some (lit "a")) None None None)
           (lit "Bearer sk-test")
           (Generate.request_body (lit "a")
              (generation (Some (lit "a")) None None None))
           (artifact_response Missing)
           {| sj_message := None;
              sj_error := None;
              sj_stringified := lit "{}";
              sj_artifact0_base64 := Some (lit "iVBORw0KGgo=");
              sj_model_id := None;
              sj_metrics_inference := Missing |}
           (lit "iVBORw0KGgo=")).
  - vm_compute; left; reflexivity.
  - reflexivity.
  - reflexivity.
  - reflexivity.
  - split; reflexivity.
Defined.

(** X9: every response of the generate handler is a success body with
    status 200 and a non-empty image, or a failure body with status 400,
    500 or 502; a failure that reports an upstream status has status
    502. *)
Theorem generate_status_codes w request r tr :
  run (Generate.POST w request) = (Returned r, tr) ->
  match body r with
  | Generate.Success b64 _ _ => init_status r = 200%N /\ truthy b64 = true
  | Generate.Failure _ (Some _) => init_status r = 502%N
  | Generate.Failure _ None =>
    init_status r = 400%N \/ init_status r = 500%N \/ init_status r = 502%N
  end.
Proof.
  unfold run, Generate.POST, Generate.respond, ret.
  destruct (truthy_opt (STABILITY_API_KEY (env w))); cbn [negb];
    [|intros H; injection H as <- _; simpl; auto].
  destruct request as [| |payload];
    [intros H; injection H as <- _; simpl; auto|discriminate|].
  destruct (truthy_opt (option_map trim (Generate.prompt payload)));
    cbn [negb]; [|intros H; injection H as <- _; simpl; auto].
  unfold bind, fetch.
  match goal with |- context [stability w ?a ?b] =>
    destruct (stability w a b) as [response|e]; [|discriminate]
  end.
  destruct (ok response); cbn [negb].
  - unfold Generate.upstream_success, Generate.respond, bind, await, ret.
    destruct (json response) as [j|e]; [|discriminate].
    destruct (sj_artifact0_base64 j) as [b|];
      [destruct (truthy b) eqn:T|];
      intros H; injection H as <- _; simpl; auto.
  - unfold Generate.upstream_failure, Generate.respond, bind, try_catch,
      await, ret.
    destruct (json response) as [j|e].
    + intros H; injection H as <- _; reflexivity.
    + destruct (text_after_json response); [|discriminate].
      intros H; injection H as <- _; reflexivity.
Qed.

Lemma generate_status_codes_witness :
  init_status
    {| body := Generate.Failure (lit "Invalid JSON payload.") None;
       init_status := 400 |} = 400%N \/
  init_status
    {| body := Generate.Failure (lit "Invalid JSON payload.") None;
       init_status := 400 |} = 500%N \/
  init_status
    {| body := Generate.Failure (lit "Invalid JSON payload.") None;
       init_status := 400 |} = 502%N.
Proof.
  apply (@generate_status_codes (studio_world Missing) NotJson
           {| body := Generate.Failure (lit "Invalid JSON payload.") None;
              init_status := 400 |} []).
  reflexivity.
Defined.

(* ================================================================== *)
(** * The upload handler: its two steps, case by case *)

Lemma ensureEnv_set name value s tr :
  set_to value s -> Upload.ensureEnv name value tr = (Returned s, tr).
Proof. intros [-> T]; unfold Upload.ensureEnv; rewrite T; reflexivity. Qed.

Lemma ensureEnv_unset name value tr :
  truthy_opt value = false ->
  Upload.ensureEnv name value tr = (Threw (ErrorObject (not_set name)), tr).
Proof.
  unfold Upload.ensureEnv; destruct value as [v|]; simpl;
    [intros ->|]; reflexivity.
Qed.

(** The hosting step with its three credentials set: one call, then the
    answer decides. *)
Lemma hosting_step sha1_hex w imageData tr cloudName apiKey apiSecret :
  set_to (CLOUDINARY_CLOUD_NAME (env w)) cloudName ->
  set_to (CLOUDINARY_API_KEY (env w)) apiKey ->
  set_to (CLOUDINARY_API_SECRET (env w)) apiSecret ->
  Upload.uploadToCloudinary sha1_hex w imageData tr =
  ( match cloudinary w cloudName
            (signed_form sha1_hex (Date_now w) apiKey apiSecret imageData)
    with
    | Threw e => Threw e
    | Returned response =>
      if ok response then
        match json response with
        | Threw e => Threw e
        | Returned CloudinaryNull =>
          Threw (null_member_error (lit "secure_url"))
        | Returned (CloudinaryObject u) =>
          if truthy_opt u then Returned (or_else u [])
          else Threw (ErrorObject
                        (lit "Cloudinary did not return a secure URL."))
        end
      else
        match text response with
        | Threw e => Threw e
        | Returned [] =>
          Threw (ErrorObject
                   (lit "Cloudinary responded with status "
                      ++ decimal (status response)))
        | Returned (x :: t) => Threw (ErrorObject (x :: t))
        end
    end,
    tr ++ [ CloudinaryUpload cloudName
              (signed_form sha1_hex (Date_now w) apiKey apiSecret
                 imageData) ] ).
Proof.
  intros H1 H2 H3.
  unfold Upload.uploadToCloudinary, bind.
  rewrite (@ensureEnv_set _ _ _ _ H1), (@ensureEnv_set _ _ _ _ H2),
    (@ensureEnv_set _ _ _ _ H3).
  unfold fetch, await, throw, ret, signed_form.
  destruct (cloudinary w cloudName _) as [response|e]; [|reflexivity].
  destruct (ok response); cbn [negb].
  - destruct (json response) as [[|u]|e]; try reflexivity.
    destruct (truthy_opt u); reflexivity.
  - destruct (text response) as [[|x t]|e]; reflexivity.
Qed.

(** The hosting step with a credential missing: no call, and the error
    names the first missing variable. *)
Lemma hosting_step_unconfigured sha1_hex w imageData tr :
  truthy_opt (CLOUDINARY_CLOUD_NAME (env w))
  && truthy_opt (CLOUDINARY_API_KEY (env w))
  && truthy_opt (CLOUDINARY_API_SECRET (env w)) = false ->
  Upload.uploadToCloudinary sha1_hex w imageData tr =
  ( Threw (ErrorObject
             (not_set
                (if negb (truthy_opt (CLOUDINARY_CLOUD_NAME (env w)))
                 then lit "CLOUDINARY_CLOUD_NAME"
                 else if negb (truthy_opt (CLOUDINARY_API_KEY (env w)))
                 then lit "CLOUDINARY_API_KEY"
                 else lit "CLOUDINARY_API_SECRET"))),
    tr ).
Proof.
  intros H.
  unfold Upload.uploadToCloudinary, bind.
  destruct (truthy_opt (CLOUDINARY_CLOUD_NAME (env w))) eqn:T1; cbn [negb];
    [|rewrite (@ensureEnv_unset _ _ _ T1); reflexivity].
  apply truthy_opt_set_to in T1; destruct T1 as [cn [S1 _]].
  rewrite (@ensureEnv_set _ _ _ _ S1).
  destruct (truthy_opt (CLOUDINARY_API_KEY (env w))) eqn:T2; cbn [negb];
    [|rewrite (@ensureEnv_unset _ _ _ T2); reflexivity].
  apply truthy_opt_set_to in T2; destruct T2 as [key [S2 _]].
  rewrite (@ensureEnv_set _ _ _ _ S2).
  simpl in H; rewrite (@ensureEnv_unset _ _ _ H); reflexivity.
Qed.

(** The publish step with its two credentials set. *)
Lemma publish_step w imageUrl payload tr accessToken igUserId :
  set_to (INSTAGRAM_ACCESS_TOKEN (env w)) accessToken ->
  set_to (INSTAGRAM_IG_USER_ID (env w)) igUserId ->
  Upload.publishToInstagram w imageUrl (Upload.caption payload)
    (Upload.prompt payload) (Upload.style payload) tr =
  match graph_media w igUserId
          (container_params accessToken imageUrl payload) with
  | Threw e =>
    (Threw e,
     tr ++ [GraphMedia igUserId (container_params accessToken imageUrl payload)])
  | Returned r1 =>
    match json r1 with
    | Threw e =>
      (Threw e,
       tr ++ [GraphMedia igUserId
                (container_params accessToken imageUrl payload)])
    | Returned j1 =>
      if ok r1 && negb (truthy_opt (id j1))
         && match j1 with GraphNull => true | GraphObject _ _ => false end
      then
        ( Threw (null_member_error (lit "id")),
          tr ++ [GraphMedia igUserId
                   (container_params accessToken imageUrl payload)] )
      else if ok r1 && truthy_opt (id j1) then
        ( match graph_media_publish w igUserId
                  (publish_params accessToken (or_else (id j1) [])) with
          | Threw e => Threw e
          | Returned r2 =>
            match json r2 with
            | Threw e => Threw e
            | Returned j2 =>
              if ok r2 && negb (truthy_opt (id j2))
                 && match j2 with
                    | GraphNull => true
                    | GraphObject _ _ => false
                    end
              then Threw (null_member_error (lit "id"))
              else if ok r2 && truthy_opt (id j2) then
                Returned (or_else (id j1) [], or_else (id j2) [])
              else
                Threw (ErrorObject
                         (or_else (error_message j2)
                            (lit "Failed to publish Instagram media ("
                               ++ decimal (status r2) ++ lit ").")))
            end
          end,
          (tr ++ [GraphMedia igUserId
                    (container_params accessToken imageUrl payload)])
            ++ [GraphMediaPublish igUserId
                  (publish_params accessToken (or_else (id j1) []))] )
      else
        ( Threw (ErrorObject
                   (or_else (error_message j1)
                      (lit "Failed to create Instagram media container ("
                         ++ decimal (status r1) ++ lit ")."))),
          tr ++ [GraphMedia igUserId
                   (container_params accessToken imageUrl payload)] )
    end
  end.
Proof.
  intros H1 H2.
  unfold Upload.publishToInstagram, bind.
  rewrite (@ensureEnv_set _ _ _ _ H1), (@ensureEnv_set _ _ _ _ H2).
  unfold fetch, await, throw, ret, container_params, publish_params,
    Upload.lacks_id.
  destruct (graph_media w igUserId _) as [r1|e]; [|reflexivity].
  destruct (json r1) as [j1|e]; [|reflexivity].
  destruct (ok r1); destruct j1 as [|i1 m1]; cbn [negb andb id truthy_opt];
    try reflexivity.
  destruct (truthy_opt i1); cbn [negb andb]; [|reflexivity].
  destruct (graph_media_publish w igUserId _) as [r2|e]; [|reflexivity].
  destruct (json r2) as [j2|e]; [|reflexivity].
  destruct (ok r2); destruct j2 as [|i2 m2]; cbn [negb andb id truthy_opt];
    try reflexivity.
  destruct (truthy_opt i2); reflexivity.
Qed.

Lemma publish_step_unconfigured w imageUrl caption prompt style tr :
  truthy_opt (INSTAGRAM_ACCESS_TOKEN (env w))
  && truthy_opt (INSTAGRAM_IG_USER_ID (env w)) = false ->
  Upload.publishToInstagram w imageUrl caption prompt style tr =
  ( Threw (ErrorObject
             (not_set
                (if negb (truthy_opt (INSTAGRAM_ACCESS_TOKEN (env w)))
                 then lit "INSTAGRAM_ACCESS_TOKEN"
                 else lit "INSTAGRAM_IG_USER_ID"))),
    tr ).
Proof.
  intros H.
  unfold Upload.publishToInstagram, bind.
  destruct (truthy_opt (INSTAGRAM_ACCESS_TOKEN (env w))) eqn:T1; cbn [negb];
    [|rewrite (@ensureEnv_unset _ _ _ T1); reflexivity].
  apply truthy_opt_set_to in T1; destruct T1 as [tok [S1 _]].
  rewrite (@ensureEnv_set _ _ _ _ S1).
  simpl in H; rewrite (@ensureEnv_unset _ _ _ H); reflexivity.
Qed.

(** A run with image data: the hosting step, then the publish step. *)
Lemma upload_run sha1_hex w payload imageData :
  set_to (Upload.imageData payload) imageData ->
  run (Upload.POST sha1_hex w (Json payload)) =
  match Upload.uploadToCloudinary sha1_hex w imageData [] with
  | (Threw e, tr1) =>
    ( Returned
        {| body := Upload.Failure
             (Upload.failure_text (lit "Cloudinary upload failed") e) None;
           init_status := 502 |},
      tr1 )
  | (Returned url, tr1) =>
    match Upload.publishToInstagram w url (Upload.caption payload)
            (Upload.prompt payload) (Upload.style payload) tr1 with
    | (Returned ids, tr2) =>
      ( Returned
          {| body := Upload.Success (fst ids) (snd ids) url;
             init_status := 200 |},
        tr2 )
    | (Threw e, tr2) =>
      ( Returned
          {| body := Upload.Failure
               (Upload.failure_text (lit "Instagram publish failed") e)
               (Some url);
             init_status := 502 |},
        tr2 )
    end
  end.
Proof.
  intros [Hi Ti].
  unfold run, Upload.POST.
  rewrite Hi; cbn [truthy_opt or_else]; rewrite Ti; cbn [negb].
  unfold bind, attempt, try_catch, Upload.respond, ret.
  destruct (Upload.uploadToCloudinary sha1_hex w imageData [])
    as [[url|e] tr1]; [|reflexivity].
  destruct (Upload.publishToInstagram w url (Upload.caption payload)
              (Upload.prompt payload) (Upload.style payload) tr1)
    as [[ids|e] tr2]; reflexivity.
Qed.

(** X10: with image data present and one of the three hosting
    credentials missing or empty, the upload handler answers 502 (not
    500), names the first missing variable in the order cloud name, API
    key, API secret, and makes no outbound call at all. *)
Theorem missing_hosting_credential sha1_hex w payload imageData :
  set_to (Upload.imageData payload) imageData ->
  truthy_opt (CLOUDINARY_CLOUD_NAME (env w))
  && truthy_opt (CLOUDINARY_API_KEY (env w))
  && truthy_opt (CLOUDINARY_API_SECRET (env w)) = false ->
  run (Upload.POST sha1_hex w (Json payload)) =
  ( Returned
      {| body := Upload.Failure
           (lit "Cloudinary upload failed: "
              ++ not_set
                   (if negb (truthy_opt (CLOUDINARY_CLOUD_NAME (env w)))
                    then lit "CLOUDINARY_CLOUD_NAME"
                    else if negb (truthy_opt (CLOUDINARY_API_KEY (env w)))
                    then lit "CLOUDINARY_API_KEY"
                    else lit "CLOUDINARY_API_SECRET"))
           None;
         init_status := 502 |},
    [] ).
Proof.
  intros Hi Hc.
  rewrite (@upload_run sha1_hex w payload imageData Hi).
  rewrite (@hosting_step_unconfigured sha1_hex w imageData [] Hc).
  reflexivity.
Qed.

Lemma missing_hosting_credential_witness :
  run (Upload.POST sample_digest bare_world (Json sample_upload)) =
  ( Returned
      {| body := Upload.Failure
           (lit "Cloudinary upload failed: CLOUDINARY_CLOUD_NAME is not set. Please configure it in your environment.")
           None;
         init_status := 502 |},
    [] ).
Proof.
  apply (@missing_hosting_credential sample_digest bare_world sample_upload
           (lit "iVBORw0KGgo=")).
  - split; reflexivity.
  - reflexivity.
Defined.

(** X11: when the hosting service answers with a status that is not ok,
    the upload handler answers 502 without an image URL; the error is
    "Cloudinary upload failed: " followed by the body text or, for an
    empty body, by "Cloudinary responded with status <status>"; the
    hosting call is the only outbound call. *)
Theorem hosting_error_relayed sha1_hex w payload imageData
  cloudName apiKey apiSecret response t :
  set_to (Upload.imageData payload) imageData ->
  set_to (CLOUDINARY_CLOUD_NAME (env w)) cloudName ->
  set_to (CLOUDINARY_API_KEY (env w)) apiKey ->
  set_to (CLOUDINARY_API_SECRET (env w)) apiSecret ->
  cloudinary w cloudName
    (signed_form sha1_hex (Date_now w) apiKey apiSecret imageData) =
    Returned response ->
  ok response = false ->
  text response = Returned t ->
  run (Upload.POST sha1_hex w (Json payload)) =
  ( Returned
      {| body := Upload.Failure
           (lit "Cloudinary upload failed: "
              ++ match t with
                 | [] => lit "Cloudinary responded with status "
                           ++ decimal (status response)
                 | x :: t' => x :: t'
                 end)
           None;
         init_status := 502 |},
    [ CloudinaryUpload cloudName
        (signed_form sha1_hex (Date_now w) apiKey apiSecret imageData) ] ).
Proof.
  intros Hi H1 H2 H3 Hw Hok Ht.
  rewrite (@upload_run sha1_hex w payload imageData Hi).
  rewrite (@hosting_step sha1_hex w imageData [] _ _ _ H1 H2 H3).
  rewrite Hw, Hok, Ht.
  destruct t; reflexivity.
Qed.

Lemma hosting_error_relayed_witness :
  fst (run (Upload.POST sample_digest
              (world_with full_env unreachable
                 (Returned (response_of false 401 [] (Threw OtherThrown)))
                 unreachable unreachable)
              (Json sample_upload))) =
  Returned
    {| body := Upload.Failure
         (lit "Cloudinary upload failed: Cloudinary responded with status 401")
         None;
       init_status := 502 |}.
Proof.
  erewrite (@hosting_error_relayed sample_digest
              (world_with full_env unreachable
                 (Returned (response_of false 401 [] (Threw OtherThrown)))
                 unreachable unreachable)
              sample_upload (lit "iVBORw0KGgo=")
              (lit "cloud") (lit "123") (lit "shhh"));
    [ | split; reflexivity | split; reflexivity | split; reflexivity
      | split; reflexivity | reflexivity | reflexivity | reflexivity ].
  vm_compute; reflexivity.
Defined.

(** X12: when the hosting service answers ok with a JSON body that
    yields no [secure_url], or an empty one, the upload handler answers
    502 without an image URL and the social platform is not called.  For
    a body that is not [null] the error is "Cloudinary upload failed:
    Cloudinary did not return a secure URL."; for the body [null] the
    member access itself throws, and the error relays that TypeError:
    "Cloudinary upload failed: Cannot read properties of null (reading
    'secure_url')". *)
Theorem hosting_without_url_rejected sha1_hex w payload imageData
  cloudName apiKey apiSecret response j :
  set_to (Upload.imageData payload) imageData ->
  set_to (CLOUDINARY_CLOUD_NAME (env w)) cloudName ->
  set_to (CLOUDINARY_API_KEY (env w)) apiKey ->
  set_to (CLOUDINARY_API_SECRET (env w)) apiSecret ->
  cloudinary w cloudName
    (signed_form sha1_hex (Date_now w) apiKey apiSecret imageData) =
    Returned response ->
  ok response = true ->
  json response = Returned j ->
  truthy_opt (secure_url j) = false ->
  run (Upload.POST sha1_hex w (Json payload)) =
  ( Returned
      {| body := Upload.Failure
           (match j with
            | CloudinaryNull =>
              lit "Cloudinary upload failed: Cannot read properties of null (reading 'secure_url')"
            | CloudinaryObject _ =>
              lit "Cloudinary upload failed: Cloudinary did not return a secure URL."
            end)
           None;
         init_status := 502 |},
    [ CloudinaryUpload cloudName
        (signed_form sha1_hex (Date_now w) apiKey apiSecret imageData) ] ).
Proof.
  intros Hi H1 H2 H3 Hw Hok Hj Hu.
  rewrite (@upload_run sha1_hex w payload imageData Hi).
  rewrite (@hosting_step sha1_hex w imageData [] _ _ _ H1 H2 H3).
  rewrite Hw, Hok, Hj.
  destruct j as [|u]; [reflexivity|].
  cbn [secure_url] in Hu; rewrite Hu; reflexivity.
Qed.

Lemma hosting_without_url_rejected_witness :
  fst (run (Upload.POST sample_digest
              (world_with full_env unreachable
                 (Returned (response_of true 200 []
                    (Returned CloudinaryNull)))
                 unreachable unreachable)
              (Json sample_upload))) =
  Returned
    {| body := Upload.Failure
         (lit "Cloudinary upload failed: Cannot read properties of null (reading 'secure_url')")
         None;
       init_status := 502 |}.
Proof.
  erewrite (@hosting_without_url_rejected sample_digest
              (world_with full_env unreachable
                 (Returned (response_of true 200 []
                    (Returned CloudinaryNull)))
                 unreachable unreachable)
              sample_upload (lit "iVBORw0KGgo=")
              (lit "cloud") (lit "123") (lit "shhh"));
    [ | split; reflexivity | split; reflexivity | split; reflexivity
      | split; reflexivity | reflexivity | reflexivity | reflexivity
      | reflexivity ].
  reflexivity.
Defined.

(** X13: the social-platform credentials are read only after the image
    is hosted: with image data and a hosting step that returned a URL,
    a missing or empty access token or account id gives 502 with that
    URL, the error naming the first missing variable, and the publish
    step adds no call to those of the hosting step. *)
Theorem publish_credentials_checked_late sha1_hex w payload imageData
  url tr1 :
  set_to (Upload.imageData payload) imageData ->
  Upload.uploadToCloudinary sha1_hex w imageData [] = (Returned url, tr1) ->
  truthy_opt (INSTAGRAM_ACCESS_TOKEN (env w))
  && truthy_opt (INSTAGRAM_IG_USER_ID (env w)) = false ->
  run (Upload.POST sha1_hex w (Json payload)) =
  ( Returned
      {| body := Upload.Failure
           (lit "Instagram publish failed: "
              ++ not_set
                   (if negb (truthy_opt (INSTAGRAM_ACCESS_TOKEN (env w)))
                    then lit "INSTAGRAM_ACCESS_TOKEN"
                    else lit "INSTAGRAM_IG_USER_ID"))
           (Some url);
         init_status := 502 |},
    tr1 ).
Proof.
  intros Hi Hu Hc.
  rewrite (@upload_run sha1_hex w payload imageData Hi), Hu.
  rewrite (@publish_step_unconfigured w url _ _ _ tr1 Hc).
  reflexivity.
Qed.

Lemma publish_credentials_checked_late_witness :
  run (Upload.POST sample_digest (studio_world Missing) (Json sample_upload)) =
  ( Returned
      {| body := Upload.Failure
           (lit "Instagram publish failed: INSTAGRAM_ACCESS_TOKEN is not set. Please configure it in your environment.")
           (Some sample_url);
         init_status := 502 |},
    [ CloudinaryUpload (lit "cloud")
        (signed_form sample_digest 1700000000000 (lit "123") (lit "shhh")
           (lit "iVBORw0KGgo=")) ] ).
Proof.
  apply (@publish_credentials_checked_late sample_digest
           (studio_world Missing) sample_upload (lit "iVBORw0KGgo=")).
  - split; reflexivity.
  - vm_compute; reflexivity.
  - reflexivity.
Defined.





(** X16: when the image is hosted, the container is created and the
    publication returns an id, the handler answers 200 with the container
    id, the publish id and the hosted URL; after the hosting call it has
    requested the container with the hosted URL and the composed caption,
    and then the publication of that container, both for the configured
    account and with the configured token. *)
Theorem upload_succeeds sha1_hex w payload imageData
  url tr1 accessToken igUserId r1 j1 containerId r2 j2 publishId :
  set_to (Upload.imageData payload) imageData ->
  Upload.uploadToCloudinary sha1_hex w imageData [] = (Returned url, tr1) ->
  set_to (INSTAGRAM_ACCESS_TOKEN (env w)) accessToken ->
  set_to (INSTAGRAM_IG_USER_ID (env w)) igUserId ->
  graph_media w igUserId (container_params accessToken url payload) =
    Returned r1 ->
  ok r1 = true ->
  json r1 = Returned j1 ->
  set_to (id j1) containerId ->
  graph_media_publish w igUserId (publish_params accessToken containerId) =
    Returned r2 ->
  ok r2 = true ->
  json r2 = Returned j2 ->
  set_to (id j2) publishId ->
  run (Upload.POST sha1_hex w (Json payload)) =
  ( Returned {| body := Upload.Success containerId publishId url;
                init_status := 200 |},
    tr1 ++ [ GraphMedia igUserId (container_params accessToken url payload);
             GraphMediaPublish igUserId
               (publish_params accessToken containerId) ] ).
Proof.
  intros Hi Hu H1 H2 Hw1 Hok1 Hj1 Hc Hw2 Hok2 Hj2 Hp.
  rewrite (@upload_run sha1_hex w payload imageData Hi), Hu.
  rewrite (@publish_step w url payload tr1 _ _ H1 H2), Hw1, Hj1, Hok1.
  destruct (set_to_truthy_opt Hc) as [-> ->]; cbn [andb negb].
  rewrite Hw2, Hj2, Hok2.
  destruct (set_to_truthy_opt Hp) as [-> ->]; cbn [andb negb fst snd].
  rewrite <- app_assoc; reflexivity.
Qed.

Lemma upload_succeeds_witness :
  fst (run (Upload.POST sample_digest
              (world_with full_env unreachable (Returned hosted_response)
                 (graph_answer true 200 (Some (lit "179")) None)
                 (graph_answer true 200 (Some (lit "180")) None))
              (Json sample_upload))) =
  Returned {| body := Upload.Success (lit "179") (lit "180") sample_url;
              init_status := 200 |}.
Proof.
  erewrite (@upload_succeeds sample_digest
              (world_with full_env unreachable (Returned hosted_response)
                 (graph_answer true 200 (Some (lit "179")) None)
                 (graph_answer true 200 (Some (lit "180")) None))
              sample_upload (lit "iVBORw0KGgo=") sample_url _
              (lit "EAAG") (lit "1784") _ _ (lit "179") _ _ (lit "180"));
    [ | split; reflexivity | vm_compute; reflexivity | split; reflexivity
      | split; reflexivity | reflexivity | reflexivity | reflexivity
      | split; reflexivity | reflexivity | reflexivity | reflexivity
      | split; reflexivity ].
  reflexivity.
Defined.

Lemma andb3_set_to (a b c : option jsstring) :
  truthy_opt a && truthy_opt b && truthy_opt c = true ->
  exists x y z, set_to a x /\ set_to b y /\ set_to c z.
Proof.
  intros H; apply andb_prop in H; destruct H as [H Hc].
  apply andb_prop in H; destruct H as [Ha Hb].
  destruct (truthy_opt_set_to _ Ha) as [x [Sx _]].
  destruct (truthy_opt_set_to _ Hb) as [y [Sy _]].
  destruct (truthy_opt_set_to _ Hc) as [z [Sz _]].
  eauto 10.
Qed.

(** The calls of the hosting step: none when it throws for a missing
    credential, else the one signed upload. *)
Lemma hosting_trace_shape sha1_hex w imageData tr :
  (exists e, Upload.uploadToCloudinary sha1_hex w imageData tr = (Threw e, tr))
  \/
  exists cloudName apiKey apiSecret,
    set_to (CLOUDINARY_CLOUD_NAME (env w)) cloudName /\
    set_to (CLOUDINARY_API_KEY (env w)) apiKey /\
    set_to (CLOUDINARY_API_SECRET (env w)) apiSecret /\
    snd (Upload.uploadToCloudinary sha1_hex w imageData tr) =
    tr ++ [ CloudinaryUpload cloudName
              (signed_form sha1_hex (Date_now w) apiKey apiSecret
                 imageData) ].
Proof.
  destruct (truthy_opt (CLOUDINARY_CLOUD_NAME (env w))
            && truthy_opt (CLOUDINARY_API_KEY (env w))
            && truthy_opt (CLOUDINARY_API_SECRET (env w))) eqn:Hc.
  - apply andb3_set_to in Hc.
    destruct Hc as (cn & key & secret & H1 & H2 & H3).
    right; exists cn, key, secret.
    rewrite (@hosting_step sha1_hex w imageData tr _ _ _ H1 H2 H3); auto.
  - left; eexists.
    apply (@hosting_step_unconfigured sha1_hex w imageData tr Hc).
Qed.

(** The calls of the publish step: none when a credential is missing,
    else the container creation, followed or not by the publication. *)
Lemma publish_trace_shape w url payload tr :
  snd (Upload.publishToInstagram w url (Upload.caption payload)
         (Upload.prompt payload) (Upload.style payload) tr) = tr
  \/
  exists accessToken igUserId,
    set_to (INSTAGRAM_ACCESS_TOKEN (env w)) accessToken /\
    set_to (INSTAGRAM_IG_USER_ID (env w)) igUserId /\
    (snd (Upload.publishToInstagram w url (Upload.caption payload)
            (Upload.prompt payload) (Upload.style payload) tr) =
     tr ++ [GraphMedia igUserId (container_params accessToken url payload)]
     \/
     exists containerId,
       snd (Upload.publishToInstagram w url (Upload.caption payload)
              (Upload.prompt payload) (Upload.style payload) tr) =
       tr ++ [ GraphMedia igUserId
                 (container_params accessToken url payload);
               GraphMediaPublish igUserId
                 (publish_params accessToken containerId) ]).
Proof.
  destruct (truthy_opt (INSTAGRAM_ACCESS_TOKEN (env w))
            && truthy_opt (INSTAGRAM_IG_USER_ID (env w))) eqn:Hg;
    [|left; rewrite (@publish_step_unconfigured w url _ _ _ tr Hg);
      reflexivity].
  apply andb_prop in Hg; destruct Hg as [Ht Hu].
  destruct (truthy_opt_set_to _ Ht) as [tok [St _]].
  destruct (truthy_opt_set_to _ Hu) as [uid [Su _]].
  right; exists tok, uid; split; [exact St|]; split; [exact Su|].
  rewrite (@publish_step w url payload tr _ _ St Su).
  destruct (graph_media w uid (container_params tok url payload))
    as [r1|e]; [|left; reflexivity].
  destruct (json r1) as [j1|e]; [|left; reflexivity].
  match goal with |- context [if ?b then _ else _] => destruct b end;
    [left; reflexivity|].
  destruct (ok r1 && truthy_opt (id j1)); [|left; reflexivity].
  right; exists (or_else (id j1) []).
  rewrite <- app_assoc; reflexivity.
Qed.

(** X17: the outbound calls of any Upload request, in order: none; or
    the signed hosting upload alone; or that upload, then the container
    creation for the configured account; or those two, then the
    publication of a container. Nothing else is ever called, and never in
    another order. *)
Theorem upload_call_order sha1_hex w request :
  snd (run (Upload.POST sha1_hex w request)) = [] \/
  exists payload imageData cloudName apiKey apiSecret rest,
    request = Json payload /\
    set_to (Upload.imageData payload) imageData /\
    set_to (CLOUDINARY_CLOUD_NAME (env w)) cloudName /\
    set_to (CLOUDINARY_API_KEY (env w)) apiKey /\
    set_to (CLOUDINARY_API_SECRET (env w)) apiSecret /\
    snd (run (Upload.POST sha1_hex w request)) =
      CloudinaryUpload cloudName
        (signed_form sha1_hex (Date_now w) apiKey apiSecret imageData)
      :: rest /\
    (rest = [] \/
     exists accessToken igUserId url,
       set_to (INSTAGRAM_ACCESS_TOKEN (env w)) accessToken /\
       set_to (INSTAGRAM_IG_USER_ID (env w)) igUserId /\
       (rest = [ GraphMedia igUserId
                   (container_params accessToken url payload) ] \/
        exists containerId,
          rest = [ GraphMedia igUserId
                     (container_params accessToken url payload);
                   GraphMediaPublish igUserId
                     (publish_params accessToken containerId) ])).
Proof.
  destruct request as [| |payload]; [left; reflexivity..|].
  destruct (truthy_opt (Upload.imageData payload)) eqn:Ti;
    [|left; unfold run, Upload.POST; rewrite Ti; reflexivity].
  apply truthy_opt_set_to in Ti; destruct Ti as [imageData [Hi _]].
  rewrite (@upload_run sha1_hex w payload imageData Hi).
  destruct (hosting_trace_shape sha1_hex w imageData [])
    as [[e He]|(cn & key & secret & H1 & H2 & H3 & Hh)];
    [left; rewrite He; reflexivity|].
  right; exists payload, imageData, cn, key, secret.
  destruct (Upload.uploadToCloudinary sha1_hex w imageData [])
    as [[url|e] tr1]; cbn [snd app] in Hh; subst tr1;
    [|exists []; auto 10].
  destruct (publish_trace_shape w url payload
              [CloudinaryUpload cn
                 (signed_form sha1_hex (Date_now w) key secret imageData)])
    as [Hp|(tok & uid & St & Su & [Hp|[cid Hp]])];
    destruct (Upload.publishToInstagram w url (Upload.caption payload)
                (Upload.prompt payload) (Upload.style payload)
                [CloudinaryUpload cn
                   (signed_form sha1_hex (Date_now w) key secret imageData)])
      as [[ids|e] tr2]; cbn [snd app] in Hp; subst tr2; cbn [snd].
  - exists []; auto 10.
  - exists []; auto 10.
  - eexists; repeat (split; [first [reflexivity|eassumption]|]).
    right; exists tok, uid, url; auto.
  - eexists; repeat (split; [first [reflexivity|eassumption]|]).
    right; exists tok, uid, url; auto.
  - eexists; repeat (split; [first [reflexivity|eassumption]|]).
    right; exists tok, uid, url; split; [exact St|]; split; [exact Su|].
    right; exists cid; reflexivity.
  - eexists; repeat (split; [first [reflexivity|eassumption]|]).
    right; exists tok, uid, url; split; [exact St|]; split; [exact Su|].
    right; exists cid; reflexivity.
Qed.


Lemma publish_only_after_hosting_witness :
  exists url tr1,
    Upload.uploadToCloudinary sample_digest
      (world_with full_env unreachable (Returned hosted_response)
         unreachable unreachable)
      (or_else (Upload.imageData sample_upload) []) [] =
    (Returned url, tr1).
Proof.
  apply (@publish_only_after_hosting sample_digest
           (world_with full_env unreachable (Returned hosted_response)
              unreachable unreachable)
           sample_upload).
  vm_compute; reflexivity.
Defined.

Lemma uploadToCloudinary_returns_witness :
  exists cloudName formData response j,
    [ CloudinaryUpload (lit "cloud")
        (signed_form sample_digest 1700000000000 (lit "123") (lit "shhh")
           (lit "iVBORw0KGgo=")) ] =
    [] ++ [CloudinaryUpload cloudName formData] /\
    cloudinary (studio_world Missing) cloudName formData =
      Returned response /\
    ok response = true /\
    json response = Returned j /\
    secure_url j = Some sample_url /\
    truthy sample_url = true.
Proof.
  apply (@uploadToCloudinary_returns sample_digest (studio_world Missing)
           (lit "iVBORw0KGgo=")).
  vm_compute; reflexivity.
Defined.

(* ================================================================== *)
(** * The component and the two handlers together *)

(** X21: over a whole session the history holds exactly the images of
    the generations that succeeded, most recent first, in front of what
    it held before: nothing is dropped, merged or reordered; and no
    settlement touches the prompt, the style or the caption of the
    form. *)
Theorem session_history events s :
  ArtAgent.history (ArtAgent.settle_all events s) =
    rev (ArtAgent.produced events) ++ ArtAgent.history s /\
  ArtAgent.prompt (ArtAgent.settle_all events s) = ArtAgent.prompt s /\
  ArtAgent.style (ArtAgent.settle_all events s) = ArtAgent.style s /\
  ArtAgent.caption (ArtAgent.settle_all events s) = ArtAgent.caption s.
Proof.
  revert s; induction events as [|[[[p st] result] now] events IH];
    intros s; [auto|].
  cbn [ArtAgent.settle_all ArtAgent.produced].
  destruct (IH (ArtAgent.generate_settle p st result now s))
    as (Hh & Hp & Hs & Hc).
  rewrite Hh, Hp, Hs, Hc.
  destruct result as [data|[m|]]; cbn [rev]; rewrite <- ?app_assoc; auto.
Qed.

(** X22: a failed generation changes neither the history nor the
    metadata: from a response that is not ok, [postJSON] throws, and the
    error shown is the whole body text or, for an empty body, "Request
    failed with <status>"; the in-progress flag is cleared. *)
Theorem failed_generation_reported (res : FetchResponse
                                            ArtAgent.GenerationResponse)
  t p st now s :
  ok res = false ->
  text res = Returned t ->
  ArtAgent.generationError
    (ArtAgent.generate_settle p st (ArtAgent.postJSON (Returned res)) now s) =
    Some (match t with
          | [] => lit "Request failed with " ++ decimal (status res)
          | x :: t' => x :: t'
          end) /\
  ArtAgent.history
    (ArtAgent.generate_settle p st (ArtAgent.postJSON (Returned res)) now s) =
    ArtAgent.history s /\
  ArtAgent.generationMeta
    (ArtAgent.generate_settle p st (ArtAgent.postJSON (Returned res)) now s) =
    ArtAgent.generationMeta s /\
  ArtAgent.isGenerating
    (ArtAgent.generate_settle p st (ArtAgent.postJSON (Returned res)) now s) =
    false.
Proof.
  intros Hok Ht; unfold ArtAgent.postJSON; rewrite Hok, Ht; cbn [negb].
  destruct t; auto.
Qed.

Lemma failed_generation_reported_witness :
  ArtAgent.generationError
    (ArtAgent.generate_settle (lit "a") (lit "comic-neo")
       (ArtAgent.postJSON
          (Returned (response_of false 400 []
                       (Threw (ErrorObject (lit "Unexpected end"))))))
       0 ArtAgent.initial) =
  Some (lit "Request failed with 400").
Proof.
  apply (@failed_generation_reported
           (response_of false 400 []
              (Threw (ErrorObject (lit "Unexpected end"))))
           [] (lit "a") (lit "comic-neo") 0%N ArtAgent.initial);
    reflexivity.
Defined.

(** X23: while the history is empty the upload action posts nothing and
    leaves the state as it is, and the upload button is disabled. *)
Theorem upload_without_image s :
  ArtAgent.history s = [] ->
  ArtAgent.upload_payload s = None /\
  ArtAgent.upload_begin s = s /\
  ArtAgent.upload_disabled s = true.
Proof.
  intros H.
  unfold ArtAgent.upload_payload, ArtAgent.upload_begin,
    ArtAgent.upload_disabled, ArtAgent.latestImage.
  rewrite H; auto.
Qed.

Lemma upload_without_image_witness :
  ArtAgent.upload_payload ArtAgent.initial = None /\
  ArtAgent.upload_begin ArtAgent.initial = ArtAgent.initial /\
  ArtAgent.upload_disabled ArtAgent.initial = true.
Proof. apply (@upload_without_image ArtAgent.initial); reflexivity. Defined.

(** X24: after a successful generation, and whatever else changed in the
    state since, the upload action posts that image with the prompt and
    style the generation was started with, not the ones now in the form,
    and with the caption of the moment. *)
Theorem upload_posts_latest p st data now s s' :
  ArtAgent.history s' =
    ArtAgent.history (ArtAgent.generate_settle p st (Returned data) now s) ->
  ArtAgent.upload_payload s' =
  Some {| Upload.imageData := Some (ArtAgent.base64Image data);
          Upload.caption := Some (ArtAgent.caption s');
          Upload.prompt := Some p;
          Upload.style := Some st |}.
Proof.
  intros H; unfold ArtAgent.upload_payload, ArtAgent.latestImage.
  rewrite H; reflexivity.
Qed.

Lemma upload_posts_latest_witness :
  ArtAgent.upload_payload
    (ArtAgent.setGenerationError (Some (lit "later"))
       (ArtAgent.generate_settle (lit "a") (lit "comic-neo")
          (Returned {| ArtAgent.base64Image := lit "iVBORw0KGgo=";
                       ArtAgent.inferenceTime := None;
                       ArtAgent.model := None |})
          7 ArtAgent.initial)) =
  Some {| Upload.imageData := Some (lit "iVBORw0KGgo=");
          Upload.caption := Some (ArtAgent.caption ArtAgent.initial);
          Upload.prompt := Some (lit "a");
          Upload.style := Some (lit "comic-neo") |}.
Proof.
  apply (@upload_posts_latest (lit "a") (lit "comic-neo")
           {| ArtAgent.base64Image := lit "iVBORw0KGgo=";
              ArtAgent.inferenceTime := None;
              ArtAgent.model := None |}
           7%N ArtAgent.initial
           (ArtAgent.setGenerationError (Some (lit "later"))
              (ArtAgent.generate_settle (lit "a") (lit "comic-neo")
                 (Returned {| ArtAgent.base64Image := lit "iVBORw0KGgo=";
                              ArtAgent.inferenceTime := None;
                              ArtAgent.model := None |})
                 7 ArtAgent.initial))).
  reflexivity.
Defined.

(** The options of the style select are the keys of the preset table. *)
Lemma styles_are_presets :
  map fst ArtAgent.styles = map fst Generate.STYLE_PRESETS.
Proof. reflexivity. Qed.

(** X25: every option the form offers is understood by the generate
    handler: for a state whose style and aspect ratio are options of the
    two selects, the prompt forwarded for a trimmed prompt [p] is [p],
    ", " and the descriptor of that style in the preset table, and the
    aspect ratio is forwarded as selected. *)
Theorem form_options_understood s p label rlabel :
  In (ArtAgent.style s, label) ArtAgent.styles ->
  In (ArtAgent.aspectRatio s, rlabel) ArtAgent.aspectRatios ->
  exists descriptor,
    In (ArtAgent.style s, descriptor) Generate.STYLE_PRESETS /\
    body_prompt (Generate.request_body p (ArtAgent.generate_payload s)) =
      p ++ lit ", " ++ descriptor /\
    aspect_ratio (Generate.request_body p (ArtAgent.generate_payload s)) =
      ArtAgent.aspectRatio s.
Proof.
  intros Hs Hr.
  assert (Hd : exists descriptor,
             In (ArtAgent.style s, descriptor) Generate.STYLE_PRESETS).
  { simpl in Hs.
    repeat (destruct Hs as [Hs|Hs];
            [injection Hs as <- _; eexists; simpl; eauto 6|]).
    destruct Hs. }
  destruct Hd as [descriptor Hd]; exists descriptor; split; [exact Hd|].
  split.
  - apply (style_recognized (key := ArtAgent.style s)); [exact Hd|reflexivity].
  - unfold Generate.request_body; cbn [aspect_ratio ArtAgent.generate_payload
                                         Generate.aspectRatio or_else].
    simpl in Hr.
    repeat (destruct Hr as [Hr|Hr]; [injection Hr as <- _; reflexivity|]).
    destruct Hr.
Qed.

Lemma form_options_understood_witness :
  exists descriptor,
    In (ArtAgent.style ArtAgent.initial, descriptor) Generate.STYLE_PRESETS /\
    body_prompt
      (Generate.request_body (lit "a")
         (ArtAgent.generate_payload ArtAgent.initial)) =
      lit "a" ++ lit ", " ++ descriptor /\
    aspect_ratio
      (Generate.request_body (lit "a")
         (ArtAgent.generate_payload ArtAgent.initial)) =
      ArtAgent.aspectRatio ArtAgent.initial.
Proof.
  apply (@form_options_understood ArtAgent.initial (lit "a")
           (lit "Figurative Ink") (lit "Square (1:1)")).
  - left; reflexivity.
  - left; reflexivity.
Defined.



